(** * model_download.py: packaging a model file into a zip archive

    A shallow embedding of [model_download.py].  The script is sequential
    glue around the operating system: it looks at the file system, writes
    one text file, runs one shell command and calls one platform function.
    Every function of the script is a computation in a small monad that
    threads the file system, may raise a Python exception and records what
    the process does to the outside world (console lines, file writes,
    shell commands, platform calls) in a trace. *)

From Stdlib Require Import ZArith NArith Ascii String DecimalString Lia.
From stdpp Require Import base option list gmap strings.

Local Open Scope Z_scope.

(** ** Strings *)

Module Str.

(** Python's [str.rfind] for a one-character needle: the highest index
    holding [c], or [-1]. *)
Fixpoint rfind_from (c : ascii) (s : string) (i best : Z) : Z :=
  match s with
  | EmptyString => best
  | String a r => rfind_from c r (i + 1) (if Ascii.eqb a c then i else best)
  end.

Definition rfind (c : ascii) (s : string) : Z := rfind_from c s 0 (-1).

(** Slices [s[i:]] and [s[:i]] for [0 <= i]. *)
Fixpoint drop (n : nat) (s : string) : string :=
  match n, s with
  | O, _ => s
  | S _, EmptyString => EmptyString
  | S k, String _ r => drop k r
  end.

Fixpoint take (n : nat) (s : string) : string :=
  match n, s with
  | O, _ => EmptyString
  | S _, EmptyString => EmptyString
  | S k, String a r => String a (take k r)
  end.

(** [s * n] *)
Fixpoint repeat (s : string) (n : nat) : string :=
  match n with
  | O => EmptyString
  | S k => s +:+ repeat s k
  end.

Fixpoint prefixb (p s : string) : bool :=
  match p, s with
  | EmptyString, _ => true
  | String _ _, EmptyString => false
  | String a p', String b s' => Ascii.eqb a b && prefixb p' s'
  end.

(** [needle in hay] *)
Fixpoint containsb (needle hay : string) : bool :=
  prefixb needle hay ||
  match hay with
  | EmptyString => false
  | String _ r => containsb needle r
  end.

(** [needle] occurs in [hay]. *)
Definition contains (needle hay : string) : Prop :=
  exists pre post, hay = pre +:+ needle +:+ post.

(** [hay.endswith(suffix)] *)
Definition ends_with (suffix hay : string) : Prop :=
  exists pre, hay = pre +:+ suffix.

Definition nl : string := String "010"%char EmptyString.

(** [str(n)] for a Python int. *)
Definition of_Z (n : Z) : string := NilZero.string_of_int (Z.to_int n).

End Str.

(** ** posixpath *)

Module os_path.

(** [posixpath.basename]: [i = p.rfind('/') + 1; return p[i:]]. *)
Definition basename (p : string) : string :=
  let i := Str.rfind "/"%char p + 1 in
  Str.drop (Z.to_nat i) p.

(** The loop of [genericpath._splitext] that skips the leading dots of
    the file name: [true] as soon as a character before the last dot is
    not a dot. *)
Fixpoint has_non_dot (s : string) : bool :=
  match s with
  | EmptyString => false
  | String a r => if Ascii.eqb a "."%char then has_non_dot r else true
  end.

(** [posixpath.splitext]. *)
Definition splitext (p : string) : string * string :=
  let sepIndex := Str.rfind "/"%char p in
  let dotIndex := Str.rfind "."%char p in
  if (sepIndex <? dotIndex) &&
     has_non_dot (Str.take (Z.to_nat (dotIndex - (sepIndex + 1)))
                           (Str.drop (Z.to_nat (sepIndex + 1)) p))
  then (Str.take (Z.to_nat dotIndex) p, Str.drop (Z.to_nat dotIndex) p)
  else (p, EmptyString).

End os_path.

(** ** Floats that are a file size over 2^20

    [size_bytes / (1024 * 1024)] is Python's true division of two ints: the
    quotient rounded once to the nearest double, ties to even.  The divisor
    is a power of two, so the double is [m / 2^20] where [m] is
    [size_bytes] rounded to 53 significant bits (file sizes are far below
    the overflow threshold of a double).  The format [.2f] rounds the exact
    value of the double to hundredths, ties to even.  Both roundings are
    integer arithmetic. *)

Module Float.

(** Nearest integer to [num / den], ties to even, for [0 < den]. *)
Definition round_half_even (num den : Z) : Z :=
  let q := num / den in
  let r := num mod den in
  if (den <? 2 * r) || ((den =? 2 * r) && Z.odd q) then q + 1 else q.

(** [n] rounded to a 53-bit significand. *)
Definition round53 (n : Z) : Z :=
  if n <? 2 ^ 53 then n
  else let k := Z.log2 n - 52 in round_half_even n (2 ^ k) * 2 ^ k.

Definition two_digits (d : Z) : string :=
  if d <? 10 then "0" +:+ Str.of_Z d else Str.of_Z d.

(** [f"{size_bytes / (1024 * 1024):.2f}"] *)
Definition format_mb_2f (size_bytes : Z) : string :=
  let h := round_half_even (round53 size_bytes * 100) (1024 * 1024) in
  Str.of_Z (h / 100) +:+ "." +:+ two_digits (h mod 100).

End Float.

(** ** The world of the process *)

(** What [os.stat] tells about a path.  [st_ctime] is kept as the text
    Python prints for the float that [os.path.getctime] returns. *)
Record stat := { st_size : N; st_ctime : string }.

(** The file system, as the script sees it: the paths that exist. *)
Abbreviation fs := (gmap string stat).

Inductive exn :=
| OSError (msg : string)
| Exception (msg : string)
| SystemExit (code : Z).

(** [except Exception] does not catch [SystemExit]. *)
Definition is_Exception (e : exn) : bool :=
  match e with SystemExit _ => false | _ => true end.

(** [str(e)] *)
Definition exn_str (e : exn) : string :=
  match e with
  | OSError msg | Exception msg => msg
  | SystemExit c => Str.of_Z c
  end.

Inductive result (A : Type) :=
| Ok (a : A)
| Raise (e : exn).
Arguments Ok {A} a.
Arguments Raise {A} e.

(** What the process does to the outside world. *)
Inductive event :=
| EvPrint (line : string)
| EvWrite (path content : string) (err : option string)
| EvSystem (cmd : string) (status : Z)
| EvDownload (path : string).

(** How [with open(path, 'w') as f: f.write(content)] ends: the file is
    written, or an [OSError] is raised, leaving the path as it was
    ([None]) or as a truncated or partial file. *)
Inductive write_outcome :=
| WriteOk (ctime : string)
| WriteErr (msg : string) (remains : option stat).

(** The environment of a run: whether [import google.colab] succeeds, and
    what the operating system, the shell and the platform answer. *)
Record env := {
  IN_COLAB : bool;
  open_w : fs -> string -> string -> write_outcome;
  shell : string -> fs -> Z * fs;
  colab_download : string -> fs -> option exn
}.

(** ** The monad *)

Definition M (A : Type) : Type := fs -> result A * fs * list event.

Definition ret {A} (a : A) : M A := fun s => (Ok a, s, []).

Definition bind {A B} (m : M A) (k : A -> M B) : M B :=
  fun s =>
    match m s with
    | (Ok a, s1, t1) =>
        let '(r, s2, t2) := k a s1 in (r, s2, t1 ++ t2)
    | (Raise e, s1, t1) => (Raise e, s1, t1)
    end.

Definition raise {A} (e : exn) : M A := fun s => (Raise e, s, []).

(** [try: m  except Exception as e: h e] *)
Definition try_except {A} (m : M A) (h : exn -> M A) : M A :=
  fun s =>
    match m s with
    | (Raise e, s1, t1) =>
        if is_Exception e
        then let '(r, s2, t2) := h e s1 in (r, s2, t1 ++ t2)
        else (Raise e, s1, t1)
    | ok => ok
    end.

Declare Scope py_scope.
Delimit Scope py_scope with py.
Notation "x <- m ;; k" := (bind m (fun x => k))
  (at level 100, m at next level, right associativity) : py_scope.
Notation "m ;; k" := (bind m (fun _ => k))
  (at level 100, right associativity) : py_scope.
Local Open Scope py_scope.

Definition trace {A} (x : result A * fs * list event) : list event := x.2.
Definition value {A} (x : result A * fs * list event) : result A := x.1.1.
Definition final_fs {A} (x : result A * fs * list event) : fs := x.1.2.

(** ** Primitives *)

Definition print (line : string) : M unit :=
  fun s => (Ok tt, s, [EvPrint line]).

Module os.

Definition path_exists (p : string) : M bool :=
  fun s => (Ok (bool_decide (is_Some (s !! p))), s, []).

Definition path_getsize (p : string) : M N :=
  fun s =>
    match s !! p with
    | Some st => (Ok (st_size st), s, [])
    | None => (Raise (OSError ("[Errno 2] No such file or directory: '" +:+ p +:+ "'")), s, [])
    end.

Definition path_getctime (p : string) : M string :=
  fun s =>
    match s !! p with
    | Some st => (Ok (st_ctime st), s, [])
    | None => (Raise (OSError ("[Errno 2] No such file or directory: '" +:+ p +:+ "'")), s, [])
    end.

End os.

Section Script.

Variable E : env.

(** [with open(path, 'w') as f: f.write(content)] *)
Definition write_text (path content : string) : M unit :=
  fun s =>
    match open_w E s path content with
    | WriteOk ctime =>
        (Ok tt,
         <[path := {| st_size := N.of_nat (String.length content);
                      st_ctime := ctime |}]> s,
         [EvWrite path content None])
    | WriteErr msg remains =>
        (Raise (OSError msg),
         match remains with Some st => <[path := st]> s | None => s end,
         [EvWrite path content (Some msg)])
    end.

(** [os.system(cmd)] *)
Definition os_system (cmd : string) : M Z :=
  fun s => let '(status, s') := shell E cmd s in
           (Ok status, s', [EvSystem cmd status]).

(** [files.download(path)] *)
Definition files_download (path : string) : M unit :=
  fun s =>
    match colab_download E path s with
    | None => (Ok tt, s, [EvDownload path])
    | Some e => (Raise e, s, [EvDownload path])
    end.

(** [sys.exit(code)] *)
Definition sys_exit {A} (code : Z) : M A := raise (SystemExit code).

End Script.

(** ** The f-strings of the script *)

Module Msg.

Definition not_found (model_path : string) : string :=
  "❌ Error: Model file '" +:+ model_path +:+ "' not found".

Definition is_empty (model_path : string) : string :=
  "❌ Error: Model file '" +:+ model_path +:+ "' is empty".

Definition validated (model_path size : string) : string :=
  "✅ Model file validated: " +:+ model_path +:+ " (" +:+ size +:+ ")".

Definition metadata_content (base size ctime : string) : string :=
  "Model Information" +:+ Str.nl +:+
  "==================" +:+ Str.nl +:+
  "Model file: " +:+ base +:+ Str.nl +:+
  "File size: " +:+ size +:+ Str.nl +:+
  "Created: " +:+ ctime +:+ Str.nl +:+
  "Description: Fine-tuned disease classification model" +:+ Str.nl.

Definition metadata_created (metadata_path : string) : string :=
  "✅ Model metadata created: " +:+ metadata_path.

Definition metadata_warning (e : string) : string :=
  "⚠️  Warning: Could not create metadata file: " +:+ e.

Definition creating_zip : string := "📦 Creating zip file...".

Definition zip_failed (exit_code : Z) : string :=
  "❌ Error: Failed to create zip file (exit code: " +:+ Str.of_Z exit_code +:+ ")".

Definition zip_missing (zip_path : string) : string :=
  "❌ Error: Zip file '" +:+ zip_path +:+ "' was not created".

Definition zipped (zip_path file_size : string) : string :=
  "✅ Model zipped successfully as " +:+ zip_path +:+ " (" +:+ file_size +:+ ")".

Definition download_error (e : string) : string :=
  "❌ Error during download: " +:+ e.

Definition simulating : string :=
  "🔄 Simulating download (not in Colab environment)...".

Definition would_download (zip_path : string) : string :=
  "   File '" +:+ zip_path +:+ "' would be downloaded in Google Colab".

Definition simulation_complete : string := "✅ Download simulation complete!".

End Msg.

(** ** The script *)

Section Program.

Variable E : env.

Definition get_file_size_mb (file_path : string) : M string :=
  found <- os.path_exists file_path ;;
  if found : bool then
    size_bytes <- os.path_getsize file_path ;;
    ret (Float.format_mb_2f (Z.of_N size_bytes) +:+ " MB")
  else ret "Unknown".

Definition validate_model_file (model_path : string) : M bool :=
  found <- os.path_exists model_path ;;
  if negb found then
    print (Msg.not_found model_path) ;;
    ret false
  else
    size_bytes <- os.path_getsize model_path ;;
    if (size_bytes =? 0)%N then
      print (Msg.is_empty model_path) ;;
      ret false
    else
      size <- get_file_size_mb model_path ;;
      print (Msg.validated model_path size) ;;
      ret true.

Definition metadata_path_of (model_path : string) : string :=
  (os_path.splitext model_path).1 +:+ "_info.txt".

Definition create_model_metadata (model_path : string) : M (option string) :=
  size <- get_file_size_mb model_path ;;
  ctime <- os.path_getctime model_path ;;
  let metadata_content :=
    Msg.metadata_content (os_path.basename model_path) size ctime in
  let metadata_path := metadata_path_of model_path in
  try_except
    (write_text E metadata_path metadata_content ;;
     print (Msg.metadata_created metadata_path) ;;
     ret (Some metadata_path))
    (fun e =>
     print (Msg.metadata_warning (exn_str e)) ;;
     ret None).

(** The truth value of a string: [""] is false. *)
Definition truthy (s : string) : bool :=
  match s with EmptyString => false | String _ _ => true end.

(** [f"zip -r {zip_name} {model_path}"] *)
Definition zip_base (zip_name model_path : string) : string :=
  "zip -r " +:+ zip_name +:+ " " +:+ model_path.

Definition create_zip_archive (model_path zip_name : string) : M bool :=
  print Msg.creating_zip ;;
  valid <- validate_model_file model_path ;;
  if negb valid then ret false
  else
    metadata_path <- create_model_metadata model_path ;;
    let zip_command := zip_base zip_name model_path in
    zip_command <-
      match metadata_path with
      | Some p =>
          if truthy p then
            found <- os.path_exists p ;;
            ret (if found : bool then zip_command +:+ " " +:+ p else zip_command)
          else ret zip_command
      | None => ret zip_command
      end ;;
    exit_code <- os_system E zip_command ;;
    if negb (exit_code =? 0) then
      print (Msg.zip_failed exit_code) ;;
      ret false
    else ret true.

Definition download_model_zip (zip_path : string) : M bool :=
  found <- os.path_exists zip_path ;;
  if negb found then
    print (Msg.zip_missing zip_path) ;;
    ret false
  else
    file_size <- get_file_size_mb zip_path ;;
    print (Msg.zipped zip_path file_size) ;;
    if IN_COLAB E then
      try_except
        (print "🔄 Starting download..." ;;
         files_download E zip_path ;;
         print "✅ Download initiated!" ;;
         ret true)
        (fun e =>
         print (Msg.download_error (exn_str e)) ;;
         ret false)
    else
      print Msg.simulating ;;
      print (Msg.would_download zip_path) ;;
      print Msg.simulation_complete ;;
      ret true.

Definition model_path : string := "fin_disease.pth".
Definition zip_name : string := "fin_disease.zip".

Definition main : M unit :=
  print "🚀 Starting model download process..." ;;
  print (Str.repeat "=" 50) ;;
  archived <- create_zip_archive model_path zip_name ;;
  (if negb archived then
     print "❌ Failed to create zip archive. Aborting." ;;
     sys_exit 1
   else ret tt) ;;
  downloaded <- download_model_zip zip_name ;;
  (if negb downloaded then
     print "❌ Failed to download zip file. Aborting." ;;
     sys_exit 1
   else ret tt) ;;
  print (Str.repeat "=" 50) ;;
  print "🎉 Model download process completed successfully!".

(** The module body that runs before [main]: the import check. *)
Definition detect_colab : M unit :=
  if IN_COLAB E then ret tt
  else
    print "⚠️  Note: Not running in Google Colab environment" ;;
    print "   files.download() functionality will be simulated".

Definition script : M unit := detect_colab ;; main.

End Program.

(** The exit status of the interpreter: 0 when the script returns, the
    code of [sys.exit], 1 after any other uncaught exception. *)
Definition exit_status (r : result unit) : Z :=
  match r with
  | Ok _ => 0
  | Raise (SystemExit code) => code
  | Raise _ => 1
  end.

(** One run of [python model_download.py]. *)
Definition run (E : env) (s : fs) : Z * fs * list event :=
  let '(r, s', t) := script E s in (exit_status r, s', t).

(** ** The test harness: test_model_download_fix.py

    The harness runs the script as a child process and looks at what it
    captured.  The child writes to a pipe, so its prints are buffered and
    flushed when it exits, after whatever the commands it ran through
    [os.system] wrote to the same pipe. *)

Module Harness.












(** [sum(results)] on booleans. *)
Fixpoint sum (results : list bool) : Z :=
  match results with
  | [] => 0
  | b :: r => (if b then 1 else 0) + sum r
  end.

(** The lines [f"{i+1}. {test.__name__}: {status}"] of the summary. *)
Fixpoint summary_lines (i : Z) (tests : list (string * bool)) : list string :=
  match tests with
  | [] => []
  | (name, result) :: r =>
      (Str.of_Z (i + 1) +:+ ". " +:+ name +:+ ": " +:+
       (if result then "✅ PASS" else "❌ FAIL"))
      :: summary_lines (i + 1) r
  end.

(** [main] of the harness after the tests ran: [tests] pairs the name of
    each test with what it returned.  The exit status and the summary. *)
Definition main (tests : list (string * bool)) : Z * list string :=
  let results := map snd tests in
  let passed := sum results in
  let total := Z.of_nat (length results) in
  let report :=
    [Str.nl +:+ Str.repeat "=" 50;
     "📋 TEST RESULTS SUMMARY";
     Str.repeat "=" 50] ++
    summary_lines 0 tests ++
    [Str.nl +:+ "Overall: " +:+ Str.of_Z passed +:+ "/" +:+ Str.of_Z total +:+
     " tests passed"] in
  if passed =? total then
    (0, report ++ ["🎉 All tests passed! The fix is working correctly."])
  else
    (1, report ++ ["❌ Some tests failed. Please review the output above."]).

End Harness.

(** ** Vocabulary of the statements *)

(** The path separator, as a string. *)
Definition slash : string := String "/"%char EmptyString.

(** The model at [p] exists and is not empty. *)
Definition valid_model (p : string) (s : fs) : Prop :=
  exists st, s !! p = Some st /\ st_size st <> 0%N.

(** The size line of a file that exists. *)
Definition size_text (st : stat) : string :=
  Float.format_mb_2f (Z.of_N (st_size st)) +:+ " MB".

(** The report for the model at [p] with attributes [st]. *)
Definition metadata_text (p : string) (st : stat) : string :=
  Msg.metadata_content (os_path.basename p) (size_text st) (st_ctime st).

(** The attributes of a file just written with [content]. *)
Definition written (content ctime : string) : stat :=
  {| st_size := N.of_nat (String.length content); st_ctime := ctime |}.

(** The lines that every call of [create_zip_archive] on a valid model
    prints before it writes the metadata file. *)
Definition archive_prologue (p : string) (st : stat) : list event :=
  [EvPrint Msg.creating_zip; EvPrint (Msg.validated p (size_text st))].

(** The shell step and what follows it. *)
Definition archive_epilogue (E : env) (cmd : string) (s : fs)
  : result bool * fs * list event :=
  let '(status, s') := shell E cmd s in
  (Ok (status =? 0), s',
   EvSystem cmd status ::
   (if status =? 0 then [] else [EvPrint (Msg.zip_failed status)])).

Definition banner : list event :=
  [EvPrint "🚀 Starting model download process..."; EvPrint (Str.repeat "=" 50)].

Definition colab_note (E : env) : list event :=
  if IN_COLAB E then []
  else [EvPrint "⚠️  Note: Not running in Google Colab environment";
        EvPrint "   files.download() functionality will be simulated"].

(** What [main] does after the archiver and the transfer step returned. *)
Definition after_download (r : result bool) : Z * list event :=
  match r with
  | Ok true =>
      (0, [EvPrint (Str.repeat "=" 50);
           EvPrint "🎉 Model download process completed successfully!"])
  | Ok false => (1, [EvPrint "❌ Failed to download zip file. Aborting."])
  | Raise e => (exit_status (Raise e), [])
  end.

(** The lines of the simulated transfer. *)
Definition simulated_line (z line : string) : Prop :=
  line = Msg.simulating \/ line = Msg.would_download z \/
  line = Msg.simulation_complete.

(** Metadata creation returned a path, and that path exists when the
    command is built. *)
Definition metadata_available (E : env) (p : string) (s : fs) : Prop :=
  exists mp s1 t,
    create_model_metadata E p s = (Ok (Some mp), s1, t) /\ is_Some (s1 !! mp).

(** ** Order of events in a trace *)

(** No event of kind [Q] occurs in [t] before the first event of kind [P]. *)
Fixpoint guarded (P Q : event -> Prop) (t : list event) : Prop :=
  match t with
  | [] => True
  | e :: r => ~ Q e /\ (P e \/ guarded P Q r)
  end.

Definition is_write (e : event) : bool :=
  match e with EvWrite _ _ _ => true | _ => false end.

Definition is_system (e : event) : bool :=
  match e with EvSystem _ _ => true | _ => false end.

(** The stages after validation: the metadata write and the zip command. *)
Definition after_validation (e : event) : Prop :=
  is_write e = true \/ is_system e = true.

(** The transfer itself: the platform call or a line of its simulation. *)
Definition transfer_event (z : string) (e : event) : Prop :=
  e = EvDownload z \/ exists line, e = EvPrint line /\ simulated_line z line.

(** Validation of [p] passed and said so. *)
Definition validated_event (p : string) (s : fs) (e : event) : Prop :=
  valid_model p s /\ exists size, e = EvPrint (Msg.validated p size).

(** The zip command returned status zero. *)
Definition archived_event (e : event) : Prop :=
  exists cmd, e = EvSystem cmd 0.

(** ** Sample worlds *)

Definition sample_model : stat := {| st_size := 1550; st_ctime := "1729999999.25" |}.
Definition sample_zip : stat := {| st_size := 1000; st_ctime := "1730000001.0" |}.
Definition empty_model : stat := {| st_size := 0; st_ctime := "1729999999.25" |}.

(** Outside the notebook: every write succeeds and [zip] produces the
    archive it was asked for. *)
Definition local_env : env :=
  {| IN_COLAB := false;
     open_w := fun _ _ _ => WriteOk "1730000000.5";
     shell := fun _ s => (0, <[zip_name := sample_zip]> s);
     colab_download := fun _ _ => None |}.

(** A read-only working directory where [zip] fails as well. *)
Definition readonly_env : env :=
  {| IN_COLAB := false;
     open_w := fun _ _ _ => WriteErr "[Errno 13] Permission denied" None;
     shell := fun _ s => (3840, s);
     colab_download := fun _ _ => None |}.

Definition colab_env : env :=
  {| IN_COLAB := true;
     open_w := fun _ _ _ => WriteOk "1730000000.5";
     shell := fun _ s => (0, <[zip_name := sample_zip]> s);
     colab_download := fun _ _ => None |}.

Definition fs_model : fs := {[ model_path := sample_model ]}.
Definition fs_empty_model : fs := {[ model_path := empty_model ]}.
Definition fs_zip : fs := {[ zip_name := sample_zip ]}.

(** * Properties *)

Local Open Scope Z_scope.

(** ** Strings *)

Lemma append_cons (x : ascii) (a b : string) :
  String x a +:+ b = String x (a +:+ b).
Proof. reflexivity. Qed.

Lemma append_nil_l (a : string) : EmptyString +:+ a = a.
Proof. reflexivity. Qed.

Lemma append_assoc (a b c : string) : (a +:+ b) +:+ c = a +:+ b +:+ c.
Proof.
  induction a as [|x a IH]; [reflexivity |].
  rewrite !append_cons. now f_equal.
Qed.

Lemma append_nil_r (a : string) : a +:+ EmptyString = a.
Proof.
  induction a as [|x a IH]; [reflexivity |].
  rewrite append_cons. now f_equal.
Qed.

Lemma length_append (a b : string) :
  String.length (a +:+ b) = (String.length a + String.length b)%nat.
Proof.
  induction a as [|x a IH]; [reflexivity |].
  rewrite append_cons. simpl. now rewrite IH.
Qed.

Lemma contains_intro (pre needle post : string) :
  Str.contains needle (pre +:+ needle +:+ post).
Proof. now exists pre, post. Qed.

Lemma contains_append_r (needle hay tail : string) :
  Str.contains needle hay -> Str.contains needle (hay +:+ tail).
Proof.
  intros (pre & post & ->). exists pre, (post +:+ tail).
  now rewrite !append_assoc.
Qed.

Lemma contains_append_l (needle front hay : string) :
  Str.contains needle hay -> Str.contains needle (front +:+ hay).
Proof.
  intros (pre & post & ->). exists (front +:+ pre), post.
  now rewrite !append_assoc.
Qed.

Lemma prefixb_spec (p s : string) :
  Str.prefixb p s = true <-> exists post, s = p +:+ post.
Proof.
  revert s. induction p as [|a p IH]; intros s; simpl.
  - split; [intros _; now exists s | reflexivity].
  - destruct s as [|b s].
    + split; [discriminate | intros [post H]; discriminate].
    + rewrite andb_true_iff, IH. split.
      * intros [Hab [post ->]]. apply Ascii.eqb_eq in Hab as ->. now exists post.
      * intros [post H]. rewrite append_cons in H. injection H as -> ->.
        split; [apply Ascii.eqb_refl | now exists post].
Qed.

Lemma containsb_spec (needle hay : string) :
  Str.containsb needle hay = true <-> Str.contains needle hay.
Proof.
  induction hay as [|b hay IH]; simpl.
  - rewrite orb_false_r, prefixb_spec. split.
    + intros [post H]. now exists EmptyString, post.
    + intros (pre & post & H). destruct pre; [now exists post | discriminate].
  - rewrite orb_true_iff, prefixb_spec, IH. split.
    + intros [[post H] | (pre & post & ->)].
      * rewrite H. now exists EmptyString, post.
      * now exists (String b pre), post.
    + intros (pre & post & H). destruct pre as [|c pre].
      * left. now exists post.
      * right. rewrite append_cons in H. injection H as -> ->. now exists pre, post.
Qed.

(** ** Paths and sizes on examples *)

Example basename_nested : os_path.basename "models/v2/fin_disease.pth" = "fin_disease.pth".
Proof. reflexivity. Qed.

Example basename_plain : os_path.basename "fin_disease.pth" = "fin_disease.pth".
Proof. reflexivity. Qed.

Example basename_trailing_slash : os_path.basename "models/" = "".
Proof. reflexivity. Qed.

Example splitext_model : os_path.splitext "fin_disease.pth" = ("fin_disease", ".pth").
Proof. reflexivity. Qed.

Example splitext_hidden : os_path.splitext "models/.cache" = ("models/.cache", "").
Proof. reflexivity. Qed.

Example splitext_dotted_dir : os_path.splitext "run.1/model" = ("run.1/model", "").
Proof. reflexivity. Qed.

Example metadata_path_of_model : metadata_path_of model_path = "fin_disease_info.txt".
Proof. reflexivity. Qed.

Example format_small : Float.format_mb_2f 1550 = "0.00".
Proof. reflexivity. Qed.

Example format_tie_to_even : Float.format_mb_2f 131072 = "0.12".
Proof. reflexivity. Qed.

Example format_large : Float.format_mb_2f 123456789 = "117.74".
Proof. reflexivity. Qed.

Example format_beyond_53_bits : Float.format_mb_2f (2 ^ 60 + 12345) = "1099511627776.01".
Proof. vm_compute. reflexivity. Qed.

(** ** The basename is the part after the last slash *)

Lemma no_char_cons (c a : ascii) (r : string) :
  a <> c -> ~ Str.contains (String c EmptyString) r ->
  ~ Str.contains (String c EmptyString) (String a r).
Proof.
  intros Hac Hr (pre & post & H). destruct pre as [|b pre].
  - rewrite append_nil_l, append_cons in H. injection H as H _. contradiction.
  - rewrite append_cons in H. injection H as _ H. apply Hr. now exists pre, post.
Qed.

Lemma rfind_from_spec (c : ascii) (s : string) :
  forall i best,
    (~ Str.contains (String c EmptyString) s /\ Str.rfind_from c s i best = best)
    \/ (exists pre post,
          s = pre +:+ String c post /\
          ~ Str.contains (String c EmptyString) post /\
          Str.rfind_from c s i best = i + Z.of_nat (String.length pre)).
Proof.
  induction s as [|a r IH]; intros i best; simpl.
  - left. split; [|reflexivity].
    intros (pre & post & H). destruct pre; discriminate H.
  - destruct (IH (i + 1) (if Ascii.eqb a c then i else best))
      as [[Hno Hr] | (pre & post & -> & Hno & Hr)].
    + destruct (Ascii.eqb a c) eqn:Hac.
      * apply Ascii.eqb_eq in Hac as ->. right. exists EmptyString, r.
        split; [reflexivity |]. split; [exact Hno |]. rewrite Hr. simpl. lia.
      * apply Ascii.eqb_neq in Hac. left. split; [now apply no_char_cons | exact Hr].
    + right. exists (String a pre), post. split; [reflexivity |].
      split; [exact Hno |]. rewrite Hr. simpl String.length. lia.
Qed.

Lemma drop_past (pre post : string) (c : ascii) :
  Str.drop (S (String.length pre)) (pre +:+ String c post) = post.
Proof. induction pre as [|a pre IH]; [reflexivity | exact IH]. Qed.

(** [basename p] is what follows the last slash of [p]: it has no slash,
    and what precedes it is empty or ends with a slash. *)
Lemma basename_spec (p : string) :
  exists dir,
    p = dir +:+ os_path.basename p /\
    (dir = EmptyString \/ Str.ends_with slash dir) /\
    ~ Str.contains slash (os_path.basename p).
Proof.
  unfold os_path.basename, Str.rfind, slash.
  destruct (rfind_from_spec "/"%char p 0 (-1))
    as [[Hno ->] | (pre & post & -> & Hno & ->)].
  - exists EmptyString. simpl. auto.
  - exists (pre +:+ String "/"%char EmptyString).
    replace (Z.to_nat (0 + Z.of_nat (String.length pre) + 1))
      with (S (String.length pre)) by lia.
    rewrite drop_past. split; [now rewrite append_assoc |].
    split; [right; now exists pre | exact Hno].
Qed.

(** ** The monad *)

Lemma bind_ok {A B} (m : M A) (k : A -> M B) s a s1 t1 :
  m s = (Ok a, s1, t1) ->
  bind m k s = (let '(r, s2, t2) := k a s1 in (r, s2, t1 ++ t2)).
Proof. intros H. unfold bind. now rewrite H. Qed.

Lemma bind_raise {A B} (m : M A) (k : A -> M B) s e s1 t1 :
  m s = (Raise e, s1, t1) -> bind m k s = (Raise e, s1, t1).
Proof. intros H. unfold bind. now rewrite H. Qed.

(** ** The file system queries *)

Lemma path_exists_found (p : string) (s : fs) st :
  s !! p = Some st -> os.path_exists p s = (Ok true, s, []).
Proof. intros H. unfold os.path_exists. now rewrite H. Qed.

Lemma path_exists_missing (p : string) (s : fs) :
  s !! p = None -> os.path_exists p s = (Ok false, s, []).
Proof. intros H. unfold os.path_exists. now rewrite H. Qed.

Lemma get_file_size_mb_found (p : string) (s : fs) st :
  s !! p = Some st ->
  get_file_size_mb p s
  = (Ok (Float.format_mb_2f (Z.of_N (st_size st)) +:+ " MB"), s, []).
Proof.
  intros H. unfold get_file_size_mb.
  rewrite (bind_ok _ _ _ _ _ _ (path_exists_found _ _ _ H)).
  unfold bind, os.path_getsize, ret. now rewrite H.
Qed.

Lemma get_file_size_mb_missing (p : string) (s : fs) :
  s !! p = None -> get_file_size_mb p s = (Ok "Unknown", s, []).
Proof.
  intros H. unfold get_file_size_mb.
  now rewrite (bind_ok _ _ _ _ _ _ (path_exists_missing _ _ H)).
Qed.

(** ** Validation *)

Lemma validate_missing (p : string) (s : fs) :
  s !! p = None ->
  validate_model_file p s = (Ok false, s, [EvPrint (Msg.not_found p)]).
Proof.
  intros H. unfold validate_model_file.
  now rewrite (bind_ok _ _ _ _ _ _ (path_exists_missing _ _ H)).
Qed.

Lemma validate_empty (p : string) (s : fs) st :
  s !! p = Some st -> st_size st = 0%N ->
  validate_model_file p s = (Ok false, s, [EvPrint (Msg.is_empty p)]).
Proof.
  intros H H0. unfold validate_model_file.
  rewrite (bind_ok _ _ _ _ _ _ (path_exists_found _ _ _ H)). simpl.
  unfold bind at 1. unfold os.path_getsize. rewrite H, H0. reflexivity.
Qed.

Lemma validate_ok (p : string) (s : fs) st :
  s !! p = Some st -> st_size st <> 0%N ->
  validate_model_file p s
  = (Ok true, s,
     [EvPrint (Msg.validated p
        (Float.format_mb_2f (Z.of_N (st_size st)) +:+ " MB"))]).
Proof.
  intros H H0. unfold validate_model_file.
  rewrite (bind_ok _ _ _ _ _ _ (path_exists_found _ _ _ H)). simpl.
  unfold bind at 1. unfold os.path_getsize. rewrite H.
  apply N.eqb_neq in H0. rewrite H0.
  rewrite (bind_ok _ _ _ _ _ _ (get_file_size_mb_found _ _ _ H)).
  reflexivity.
Qed.

(** Validation only looks: it never raises and leaves the file system as
    it is, and it passes exactly on a file that exists and is not empty. *)
Lemma validate_cases (p : string) (s : fs) :
  (valid_model p s /\ exists line, validate_model_file p s = (Ok true, s, [EvPrint line]))
  \/ (~ valid_model p s /\ exists line, validate_model_file p s = (Ok false, s, [EvPrint line])).
Proof.
  destruct (s !! p) as [st|] eqn:H.
  - destruct (N.eq_dec (st_size st) 0%N) as [H0|H0].
    + right. split.
      * intros (st' & H' & Hn). congruence.
      * eexists. exact (validate_empty p s st H H0).
    + left. split.
      * now exists st.
      * eexists. exact (validate_ok p s st H H0).
  - right. split.
    + intros (st' & H' & _). congruence.
    + eexists. exact (validate_missing p s H).
Qed.

(** ** Metadata *)

Lemma truthy_append_r (a b : string) : truthy b = true -> truthy (a +:+ b) = true.
Proof. destruct a; [now rewrite append_nil_l | now rewrite append_cons]. Qed.

Lemma metadata_path_truthy (p : string) : truthy (metadata_path_of p) = true.
Proof. unfold metadata_path_of. now apply truthy_append_r. Qed.

Lemma create_model_metadata_found (E : env) (p : string) (s : fs) st :
  s !! p = Some st ->
  create_model_metadata E p s
  = match open_w E s (metadata_path_of p) (metadata_text p st) with
    | WriteOk ctime =>
        (Ok (Some (metadata_path_of p)),
         <[metadata_path_of p := written (metadata_text p st) ctime]> s,
         [EvWrite (metadata_path_of p) (metadata_text p st) None;
          EvPrint (Msg.metadata_created (metadata_path_of p))])
    | WriteErr msg remains =>
        (Ok None,
         match remains with
         | Some st' => <[metadata_path_of p := st']> s
         | None => s
         end,
         [EvWrite (metadata_path_of p) (metadata_text p st) (Some msg);
          EvPrint (Msg.metadata_warning msg)])
    end.
Proof.
  intros H. unfold create_model_metadata.
  rewrite (bind_ok _ _ _ _ _ _ (get_file_size_mb_found _ _ _ H)).
  unfold bind at 1. unfold os.path_getctime. rewrite H.
  fold (size_text st). fold (metadata_text p st).
  unfold try_except, bind at 1, write_text.
  destruct (open_w E s (metadata_path_of p) (metadata_text p st)); reflexivity.
Qed.

Lemma create_model_metadata_missing (E : env) (p : string) (s : fs) :
  s !! p = None ->
  exists msg, create_model_metadata E p s = (Raise (OSError msg), s, []).
Proof.
  intros H. unfold create_model_metadata.
  rewrite (bind_ok _ _ _ _ _ _ (get_file_size_mb_missing _ _ H)).
  unfold bind at 1. unfold os.path_getctime. rewrite H. now eexists.
Qed.

(** ** Archiving *)

Lemma create_zip_archive_missing (E : env) (p z : string) (s : fs) :
  s !! p = None ->
  create_zip_archive E p z s
  = (Ok false, s, [EvPrint Msg.creating_zip; EvPrint (Msg.not_found p)]).
Proof.
  intros H. unfold create_zip_archive. unfold bind at 1. unfold print at 1.
  now rewrite (bind_ok _ _ _ _ _ _ (validate_missing p s H)).
Qed.

Lemma create_zip_archive_empty (E : env) (p z : string) (s : fs) st :
  s !! p = Some st -> st_size st = 0%N ->
  create_zip_archive E p z s
  = (Ok false, s, [EvPrint Msg.creating_zip; EvPrint (Msg.is_empty p)]).
Proof.
  intros H H0. unfold create_zip_archive. unfold bind at 1. unfold print at 1.
  now rewrite (bind_ok _ _ _ _ _ _ (validate_empty p s st H H0)).
Qed.

Lemma create_zip_archive_invalid (E : env) (p z : string) (s : fs) :
  ~ valid_model p s ->
  exists line,
    (line = Msg.not_found p \/ line = Msg.is_empty p) /\
    create_zip_archive E p z s
    = (Ok false, s, [EvPrint Msg.creating_zip; EvPrint line]).
Proof.
  intros Hn. destruct (s !! p) as [st|] eqn:H.
  - destruct (N.eq_dec (st_size st) 0%N) as [H0 | H0].
    + exists (Msg.is_empty p). split; [now right |].
      exact (create_zip_archive_empty E p z s st H H0).
    + exfalso. apply Hn. now exists st.
  - exists (Msg.not_found p). split; [now left |].
    exact (create_zip_archive_missing E p z s H).
Qed.

Lemma create_zip_archive_valid (E : env) (p z : string) (s : fs) st :
  s !! p = Some st -> st_size st <> 0%N ->
  create_zip_archive E p z s
  = match open_w E s (metadata_path_of p) (metadata_text p st) with
    | WriteOk ctime =>
        let '(r, s', t) :=
          archive_epilogue E (zip_base z p +:+ " " +:+ metadata_path_of p)
            (<[metadata_path_of p := written (metadata_text p st) ctime]> s) in
        (r, s',
         archive_prologue p st ++
         [EvWrite (metadata_path_of p) (metadata_text p st) None;
          EvPrint (Msg.metadata_created (metadata_path_of p))] ++ t)
    | WriteErr msg remains =>
        let '(r, s', t) :=
          archive_epilogue E (zip_base z p)
            (match remains with
             | Some st' => <[metadata_path_of p := st']> s
             | None => s
             end) in
        (r, s',
         archive_prologue p st ++
         [EvWrite (metadata_path_of p) (metadata_text p st) (Some msg);
          EvPrint (Msg.metadata_warning msg)] ++ t)
    end.
Proof.
  intros H H0. unfold create_zip_archive.
  unfold bind at 1. unfold print at 1.
  rewrite (bind_ok _ _ _ _ _ _ (validate_ok _ _ _ H H0)).
  cbn [negb]. fold (size_text st).
  unfold bind at 1. rewrite (create_model_metadata_found E p s st H).
  unfold archive_epilogue, archive_prologue.
  destruct (open_w E s (metadata_path_of p) (metadata_text p st)) as [ctime | msg remains].
  - rewrite metadata_path_truthy.
    unfold bind at 1. unfold bind at 1. unfold os.path_exists.
    rewrite lookup_insert_eq. cbn [bool_decide decide_rel is_Some_dec ret].
    unfold bind at 1, os_system.
    destruct (shell E _ _) as [status s2].
    destruct (status =? 0) eqn:Hs; reflexivity.
  - unfold bind at 1. unfold ret at 1.
    unfold bind at 1, os_system.
    destruct (shell E _ _) as [status s2].
    destruct (status =? 0) eqn:Hs; reflexivity.
Qed.

(** ** Transfer *)

Lemma download_missing (E : env) (z : string) (s : fs) :
  s !! z = None ->
  download_model_zip E z s = (Ok false, s, [EvPrint (Msg.zip_missing z)]).
Proof.
  intros H. unfold download_model_zip.
  now rewrite (bind_ok _ _ _ _ _ _ (path_exists_missing _ _ H)).
Qed.

Lemma download_simulated (E : env) (z : string) (s : fs) st :
  IN_COLAB E = false -> s !! z = Some st ->
  download_model_zip E z s
  = (Ok true, s,
     [EvPrint (Msg.zipped z (size_text st)); EvPrint Msg.simulating;
      EvPrint (Msg.would_download z); EvPrint Msg.simulation_complete]).
Proof.
  intros HE H. unfold download_model_zip.
  rewrite (bind_ok _ _ _ _ _ _ (path_exists_found _ _ _ H)). cbn [negb].
  rewrite (bind_ok _ _ _ _ _ _ (get_file_size_mb_found _ _ _ H)).
  now rewrite HE.
Qed.

Lemma download_colab (E : env) (z : string) (s : fs) st :
  IN_COLAB E = true -> s !! z = Some st ->
  download_model_zip E z s
  = match colab_download E z s with
    | None =>
        (Ok true, s,
         [EvPrint (Msg.zipped z (size_text st)); EvPrint "🔄 Starting download...";
          EvDownload z; EvPrint "✅ Download initiated!"])
    | Some e =>
        if is_Exception e then
          (Ok false, s,
           [EvPrint (Msg.zipped z (size_text st)); EvPrint "🔄 Starting download...";
            EvDownload z; EvPrint (Msg.download_error (exn_str e))])
        else
          (Raise e, s,
           [EvPrint (Msg.zipped z (size_text st)); EvPrint "🔄 Starting download...";
            EvDownload z])
    end.
Proof.
  intros HE H. unfold download_model_zip.
  rewrite (bind_ok _ _ _ _ _ _ (path_exists_found _ _ _ H)). cbn [negb].
  rewrite (bind_ok _ _ _ _ _ _ (get_file_size_mb_found _ _ _ H)).
  rewrite HE. unfold bind at 1. unfold print at 1.
  unfold try_except, bind at 1. unfold print at 1.
  unfold bind at 1, files_download.
  destruct (colab_download E z s) as [e|]; [|reflexivity].
  destruct (is_Exception e); reflexivity.
Qed.

(** The transfer step never changes the file system. *)
Lemma download_cases (E : env) (z : string) (s : fs) :
  exists r t, download_model_zip E z s = (r, s, t).
Proof.
  destruct (s !! z) as [st|] eqn:H.
  - destruct (IN_COLAB E) eqn:HE.
    + rewrite (download_colab E z s st HE H).
      destruct (colab_download E z s) as [e|]; [destruct (is_Exception e)|]; eauto.
    + rewrite (download_simulated E z s st HE H). eauto.
  - rewrite (download_missing E z s H). eauto.
Qed.

(** ** The whole run *)

(** A run is the import note, the banner, the archiver and, when the
    archiver succeeded, the transfer step. *)
Lemma run_unfold (E : env) (s : fs) :
  run E s
  = match create_zip_archive E model_path zip_name s with
    | (Ok true, s1, t1) =>
        let '(r2, s2, t2) := download_model_zip E zip_name s1 in
        let '(code, t3) := after_download r2 in
        (code, s2, colab_note E ++ banner ++ t1 ++ t2 ++ t3)
    | (Ok false, s1, t1) =>
        (1, s1,
         colab_note E ++ banner ++ t1 ++
         [EvPrint "❌ Failed to create zip archive. Aborting."])
    | (Raise e, s1, t1) =>
        (exit_status (Raise e), s1, colab_note E ++ banner ++ t1)
    end.
Proof.
  unfold run, script, main, detect_colab, colab_note, banner.
  destruct (create_zip_archive E model_path zip_name s) as [[r1 s1] t1] eqn:H1.
  destruct (download_model_zip E zip_name s1) as [[r2 s2] t2] eqn:H2.
  destruct (IN_COLAB E);
    unfold bind, print, ret, sys_exit, raise; rewrite H1;
    (destruct r1 as [[|]|e1]; cbn [negb]; [rewrite H2|..]);
    try (destruct r2 as [[|]|e2]; cbn [negb after_download]);
    try rewrite !app_nil_r; try reflexivity.
Qed.

(** ** What the script guarantees *)

(** C8. For a path that does not exist, [get_file_size_mb] returns the
    string "Unknown": it does not raise and the answer is not a size. *)
Theorem get_file_size_mb_unknown (p : string) (s : fs) :
  s !! p = None ->
  value (get_file_size_mb p s) = Ok "Unknown".
Proof. intros H. now rewrite (get_file_size_mb_missing p s H). Qed.

Lemma get_file_size_mb_unknown_witness :
  (∅ : fs) !! "nowhere.pth" = None /\
  value (get_file_size_mb "nowhere.pth" ∅) = Ok "Unknown".
Proof.
  split; [reflexivity |].
  apply (get_file_size_mb_unknown "nowhere.pth" ∅). reflexivity.
Defined.

Lemma zip_missing_not_simulated (z : string) :
  ~ simulated_line z (Msg.zip_missing z).
Proof.
  unfold simulated_line, Msg.zip_missing, Msg.simulating, Msg.would_download,
    Msg.simulation_complete.
  intros [H | [H | H]]; cbv [String.append] in H; discriminate H.
Qed.

(** C9. For an archive path that does not exist, [download_model_zip]
    prints an error that names the archive and returns false; it neither
    calls the platform's transfer function nor prints a line of the
    simulated transfer, whether or not the run is inside the notebook
    environment. *)
Theorem download_model_zip_missing_archive (E : env) (z : string) (s : fs) :
  s !! z = None ->
  value (download_model_zip E z s) = Ok false /\
  (exists line, In (EvPrint line) (trace (download_model_zip E z s)) /\
                Str.contains z line) /\
  (forall path, ~ In (EvDownload path) (trace (download_model_zip E z s))) /\
  (forall line, In (EvPrint line) (trace (download_model_zip E z s)) ->
                ~ simulated_line z line).
Proof.
  intros H. rewrite (download_missing E z s H). cbn [value trace fst snd].
  split; [reflexivity |]. split.
  - exists (Msg.zip_missing z). split; [now left | apply contains_intro].
  - split.
    + intros path [Hp | []]. discriminate Hp.
    + intros line [Hl | []]. injection Hl as <-. apply zip_missing_not_simulated.
Qed.

Lemma download_model_zip_missing_archive_witness :
  (∅ : fs) !! zip_name = None /\
  value (download_model_zip colab_env zip_name ∅) = Ok false /\
  value (download_model_zip local_env zip_name ∅) = Ok false.
Proof.
  split; [reflexivity |]. split.
  - apply (download_model_zip_missing_archive colab_env zip_name ∅). reflexivity.
  - apply (download_model_zip_missing_archive local_env zip_name ∅). reflexivity.
Defined.

(** C3, as stated, fails: outside the notebook environment a call on an
    archive path that does not exist returns false and prints no line of
    the simulated transfer. *)
Lemma download_model_zip_outside_colab_missing :
  IN_COLAB local_env = false /\
  value (download_model_zip local_env zip_name ∅) = Ok false /\
  trace (download_model_zip local_env zip_name ∅)
  = [EvPrint "❌ Error: Zip file 'fin_disease.zip' was not created"].
Proof. repeat split. Qed.

(** C3, amended. Outside the notebook environment, for every archive path
    that exists, [download_model_zip] does not raise, prints the lines of
    the simulated transfer and returns true. *)
Theorem download_model_zip_outside_colab (E : env) (z : string) (s : fs) :
  IN_COLAB E = false ->
  is_Some (s !! z) ->
  value (download_model_zip E z s) = Ok true /\
  In (EvPrint Msg.simulating) (trace (download_model_zip E z s)) /\
  In (EvPrint (Msg.would_download z)) (trace (download_model_zip E z s)) /\
  In (EvPrint Msg.simulation_complete) (trace (download_model_zip E z s)) /\
  (forall path, ~ In (EvDownload path) (trace (download_model_zip E z s))).
Proof.
  intros HE [st H]. rewrite (download_simulated E z s st HE H).
  cbn [value trace fst snd]. repeat split; simpl; auto.
  intros path Hin. simpl in Hin. intuition discriminate.
Qed.

Lemma download_model_zip_outside_colab_witness :
  IN_COLAB local_env = false /\ is_Some (fs_zip !! zip_name) /\
  value (download_model_zip local_env zip_name fs_zip) = Ok true.
Proof.
  split; [reflexivity |]. split; [now exists sample_zip |].
  apply (download_model_zip_outside_colab local_env zip_name fs_zip);
    [reflexivity | now exists sample_zip].
Defined.

(** C1. In every run where the model file does not exist, the process
    exits with a non-zero status and prints a line that contains the path
    of the missing file. *)
Theorem run_missing_model (E : env) (s : fs) :
  s !! model_path = None ->
  let '(code, _, t) := run E s in
  code <> 0 /\
  exists line, In (EvPrint line) t /\ Str.contains model_path line.
Proof.
  intros H. rewrite run_unfold.
  rewrite (create_zip_archive_missing E model_path zip_name s H).
  split; [discriminate |].
  exists (Msg.not_found model_path). split.
  - rewrite !in_app_iff. right. right. left. simpl. auto.
  - apply contains_intro.
Qed.

Lemma run_missing_model_witness :
  (∅ : fs) !! model_path = None /\ (run local_env ∅).1.1 <> 0.
Proof.
  split; [reflexivity |].
  pose proof (run_missing_model local_env ∅ eq_refl) as H.
  destruct (run local_env ∅) as [[code s'] t]. exact (proj1 H).
Defined.

(** C2. For a model file that exists with size zero, validation returns
    false and [create_zip_archive] returns false without running the zip
    command; the file system is left as it was, so no archive appears. *)
Theorem create_zip_archive_empty_model
    (E : env) (p z : string) (s : fs) (st : stat) :
  s !! p = Some st -> st_size st = 0%N ->
  value (validate_model_file p s) = Ok false /\
  value (create_zip_archive E p z s) = Ok false /\
  (forall cmd status,
     ~ In (EvSystem cmd status) (trace (create_zip_archive E p z s))) /\
  final_fs (create_zip_archive E p z s) = s.
Proof.
  intros H H0. rewrite (validate_empty p s st H H0).
  rewrite (create_zip_archive_empty E p z s st H H0).
  cbn [value trace final_fs fst snd].
  repeat split. intros cmd status Hin. simpl in Hin. intuition discriminate.
Qed.

Lemma create_zip_archive_empty_model_witness :
  fs_empty_model !! model_path = Some empty_model /\
  st_size empty_model = 0%N /\
  value (create_zip_archive local_env model_path zip_name fs_empty_model) = Ok false /\
  final_fs (create_zip_archive local_env model_path zip_name fs_empty_model) !! zip_name = None.
Proof.
  split; [reflexivity |]. split; [reflexivity |].
  destruct (create_zip_archive_empty_model local_env model_path zip_name
              fs_empty_model empty_model eq_refl eq_refl) as (_ & Hr & _ & Hs).
  split; [exact Hr |]. rewrite Hs. reflexivity.
Defined.

(** The report embeds the basename and the size on lines of their own. *)
Lemma metadata_content_base (base size ctime : string) :
  Str.contains ("Model file: " +:+ base +:+ Str.nl)
    (Msg.metadata_content base size ctime).
Proof.
  exists ("Model Information" +:+ Str.nl +:+ "==================" +:+ Str.nl),
         ("File size: " +:+ size +:+ Str.nl +:+
          "Created: " +:+ ctime +:+ Str.nl +:+
          "Description: Fine-tuned disease classification model" +:+ Str.nl).
  unfold Msg.metadata_content. now rewrite !append_assoc.
Qed.

Lemma metadata_content_size (base size ctime : string) :
  Str.contains ("File size: " +:+ size +:+ Str.nl)
    (Msg.metadata_content base size ctime).
Proof.
  exists ("Model Information" +:+ Str.nl +:+ "==================" +:+ Str.nl +:+
          "Model file: " +:+ base +:+ Str.nl),
         ("Created: " +:+ ctime +:+ Str.nl +:+
          "Description: Fine-tuned disease classification model" +:+ Str.nl).
  unfold Msg.metadata_content. now rewrite !append_assoc.
Qed.

Lemma contains_trans (a b c : string) :
  Str.contains a b -> Str.contains b c -> Str.contains a c.
Proof.
  intros (p1 & q1 & ->) (p2 & q2 & ->).
  exists (p2 +:+ p1), (q1 +:+ q2). now rewrite !append_assoc.
Qed.

(** C4. For a model file that exists and is not empty, the content that
    [create_model_metadata] writes contains the basename of the model path
    (on the line "Model file: ...") and the size string of the model file
    (on the line "File size: ..."), and that size string ends in " MB". *)
Theorem metadata_content_embeds
    (E : env) (p : string) (s : fs) (st : stat)
    (path content : string) (err : option string) :
  s !! p = Some st -> st_size st <> 0%N ->
  In (EvWrite path content err) (trace (create_model_metadata E p s)) ->
  Str.contains (os_path.basename p) content /\
  Str.contains ("Model file: " +:+ os_path.basename p +:+ Str.nl) content /\
  exists size,
    value (get_file_size_mb p s) = Ok size /\
    Str.ends_with " MB" size /\
    Str.contains size content /\
    Str.contains ("File size: " +:+ size +:+ Str.nl) content.
Proof.
  intros H H0 Hin.
  rewrite (create_model_metadata_found E p s st H) in Hin.
  assert (Hc : content = metadata_text p st).
  { destruct (open_w E s (metadata_path_of p) (metadata_text p st));
      cbn [trace snd] in Hin; destruct Hin as [Hw | [Hw | []]];
      congruence. }
  subst content. unfold metadata_text.
  pose proof (metadata_content_base (os_path.basename p) (size_text st) (st_ctime st)) as Hb.
  pose proof (metadata_content_size (os_path.basename p) (size_text st) (st_ctime st)) as Hs.
  split; [|split; [exact Hb|]].
  - refine (contains_trans _ _ _ _ Hb). apply contains_intro.
  - exists (size_text st). rewrite (get_file_size_mb_found p s st H).
    split; [reflexivity |]. split; [now eexists |]. split; [|exact Hs].
    refine (contains_trans _ _ _ _ Hs). apply contains_intro.
Qed.

Lemma metadata_content_embeds_witness :
  fs_model !! model_path = Some sample_model /\
  st_size sample_model <> 0%N /\
  In (EvWrite "fin_disease_info.txt" (metadata_text model_path sample_model) None)
     (trace (create_model_metadata local_env model_path fs_model)) /\
  Str.contains "fin_disease.pth" (metadata_text model_path sample_model).
Proof.
  assert (Hin : In (EvWrite "fin_disease_info.txt"
                      (metadata_text model_path sample_model) None)
                   (trace (create_model_metadata local_env model_path fs_model)))
    by (left; reflexivity).
  split; [reflexivity |]. split; [discriminate |]. split; [exact Hin |].
  exact (proj1 (metadata_content_embeds local_env model_path fs_model sample_model
                  "fin_disease_info.txt" (metadata_text model_path sample_model)
                  None eq_refl ltac:(discriminate) Hin)).
Defined.

(** Case analysis on a call of [create_zip_archive]: the model is not
    valid, or it is and the metadata write and the shell answer. *)
Ltac archive_cases E p z s :=
  let st := fresh "st" in
  let Hst := fresh "Hst" in
  let Hsz := fresh "Hsz" in
  let Hn := fresh "Hn" in
  let line := fresh "line" in
  let Hl := fresh "Hl" in
  destruct (validate_cases p s) as [[(st & Hst & Hsz) _] | [Hn _]];
  [ rewrite ?(create_zip_archive_valid E p z s st Hst Hsz) in *;
    rewrite ?(create_model_metadata_found E p s st Hst) in *;
    let ctime := fresh "ctime" in
    let msg' := fresh "msg'" in
    let remains := fresh "remains" in
    let Hw := fresh "Hw" in
    destruct (open_w E s (metadata_path_of p) (metadata_text p st))
      as [ctime | msg' remains] eqn:Hw;
    unfold archive_epilogue in *;
    let status' := fresh "status'" in
    let s2 := fresh "s2" in
    let Hsh := fresh "Hsh" in
    let Hz := fresh "Hz" in
    destruct (shell E _ _) as [status' s2] eqn:Hsh;
    destruct (status' =? 0) eqn:Hz;
    cbn [value trace final_fs fst snd app archive_prologue] in *
  | destruct (create_zip_archive_invalid E p z s Hn) as (line & [-> | ->] & Hl);
    rewrite ?Hl in *;
    cbn [value trace final_fs fst snd app] in * ].

(** Membership in an explicit trace. *)
Ltac in_trace H :=
  simpl In in H;
  repeat match type of H with
         | _ \/ _ => destruct H as [H | H]
         | False => destruct H
         end;
  try discriminate H.

(** C5. In every run of the archiver in which writing the metadata file
    raises, [create_model_metadata] catches the error, prints the warning
    and returns None; [create_zip_archive] does not raise either: it goes
    on to run the zip command on the model alone, and its result is
    decided by the exit status of that command. *)
Theorem metadata_write_failure_recovered
    (E : env) (p z : string) (s : fs) (path content msg : string) :
  In (EvWrite path content (Some msg)) (trace (create_zip_archive E p z s)) ->
  value (create_model_metadata E p s) = Ok None /\
  In (EvPrint (Msg.metadata_warning msg)) (trace (create_model_metadata E p s)) /\
  exists status,
    In (EvSystem (zip_base z p) status) (trace (create_zip_archive E p z s)) /\
    value (create_zip_archive E p z s) = Ok (status =? 0).
Proof.
  intros Hin. archive_cases E p z s; in_trace Hin;
    injection Hin as <- <- <-;
    (split; [reflexivity |]); (split; [right; now left |]);
    exists status'; rewrite Hz; (split; [| reflexivity]);
    simpl; auto 10.
Qed.

Lemma metadata_write_failure_recovered_witness :
  In (EvWrite (metadata_path_of model_path)
        (metadata_text model_path sample_model)
        (Some "[Errno 13] Permission denied"))
     (trace (create_zip_archive readonly_env model_path zip_name fs_model)) /\
  value (create_model_metadata readonly_env model_path fs_model) = Ok None.
Proof.
  assert (Hin : In (EvWrite (metadata_path_of model_path)
                      (metadata_text model_path sample_model)
                      (Some "[Errno 13] Permission denied"))
                   (trace (create_zip_archive readonly_env model_path zip_name fs_model)))
    by (right; right; left; reflexivity).
  split; [exact Hin |].
  exact (proj1 (metadata_write_failure_recovered readonly_env model_path zip_name
                  fs_model _ _ _ Hin)).
Defined.

(** A call of the archiver runs the shell at most once, and when it does
    the result is the test of the exit status. *)
Lemma archive_result_of_status (E : env) (p z : string) (s : fs) cmd status :
  In (EvSystem cmd status) (trace (create_zip_archive E p z s)) ->
  create_zip_archive E p z s
  = (Ok (status =? 0), final_fs (create_zip_archive E p z s),
     trace (create_zip_archive E p z s)).
Proof.
  intros Hin. archive_cases E p z s; in_trace Hin;
    injection Hin as <- <-; now rewrite Hz.
Qed.

Lemma archive_success_ran_zip (E : env) (p z : string) (s : fs) :
  value (create_zip_archive E p z s) = Ok true ->
  exists cmd, In (EvSystem cmd 0) (trace (create_zip_archive E p z s)).
Proof.
  intros Hv. archive_cases E p z s; try discriminate Hv;
    apply Z.eqb_eq in Hz; subst; eexists; simpl; auto 10.
Qed.

(** Only the archiver runs the shell. *)
Lemma download_no_system (E : env) (z : string) (s : fs) cmd status :
  ~ In (EvSystem cmd status) (trace (download_model_zip E z s)).
Proof.
  destruct (s !! z) as [stz|] eqn:Hl.
  - destruct (IN_COLAB E) eqn:HE.
    + rewrite (download_colab E z s stz HE Hl).
      destruct (colab_download E z s) as [e|];
        [destruct (is_Exception e)|]; simpl; intuition discriminate.
    + rewrite (download_simulated E z s stz HE Hl). simpl; intuition discriminate.
  - rewrite (download_missing E z s Hl). simpl; intuition discriminate.
Qed.

Lemma run_system_event (E : env) (s : fs) cmd status :
  In (EvSystem cmd status) (run E s).2 ->
  In (EvSystem cmd status) (trace (create_zip_archive E model_path zip_name s)).
Proof.
  rewrite run_unfold.
  destruct (create_zip_archive E model_path zip_name s) as [[r1 s1] t1].
  cbn [trace snd].
  assert (Hb : ~ (In (EvSystem cmd status) (colab_note E) \/
                  In (EvSystem cmd status) banner)).
  { unfold colab_note, banner. destruct (IN_COLAB E); simpl; intuition discriminate. }
  destruct r1 as [[|]|e1].
  - pose proof (download_no_system E zip_name s1 cmd status) as Hd.
    destruct (download_model_zip E zip_name s1) as [[r2 s2] t2].
    destruct (after_download r2) as [code t3] eqn:Ha.
    cbn [trace snd] in Hd |- *. rewrite !in_app_iff.
    intros [Hin | [Hin | [Hin | [Hin | Hin]]]]; try tauto.
    destruct r2 as [[|]|e2]; cbn [after_download] in Ha;
      injection Ha as <- <-; simpl in Hin; intuition discriminate.
  - cbn [snd]. rewrite !in_app_iff. simpl. intuition discriminate.
  - cbn [snd]. rewrite !in_app_iff. tauto.
Qed.

(** C6. The archiver returns true exactly when the zip command ran and its
    exit status is zero; and in every run of the script in which the zip
    command returns a non-zero status the process exits with status 1. *)
Theorem archive_success_iff_zip_status (E : env) :
  (forall p z s,
     value (create_zip_archive E p z s) = Ok true <->
     exists cmd, In (EvSystem cmd 0) (trace (create_zip_archive E p z s))) /\
  (forall p z s cmd status,
     In (EvSystem cmd status) (trace (create_zip_archive E p z s)) ->
     (value (create_zip_archive E p z s) = Ok true <-> status = 0)) /\
  (forall s cmd status,
     In (EvSystem cmd status) (run E s).2 -> status <> 0 ->
     (run E s).1.1 = 1).
Proof.
  split; [|split].
  - intros p z s. split; [apply archive_success_ran_zip |].
    intros [cmd Hin]. now rewrite (archive_result_of_status E p z s cmd 0 Hin).
  - intros p z s cmd status Hin.
    rewrite (archive_result_of_status E p z s cmd status Hin).
    cbn [value fst]. split.
    + intros Hv. injection Hv as Hv. now apply Z.eqb_eq.
    + intros ->. reflexivity.
  - intros s cmd status Hin Hne. apply run_system_event in Hin.
    pose proof (archive_result_of_status E model_path zip_name s cmd status Hin) as Hr.
    apply Z.eqb_neq in Hne. rewrite Hne in Hr.
    rewrite run_unfold, Hr. reflexivity.
Qed.

Lemma archive_success_iff_zip_status_witness :
  In (EvSystem (zip_base zip_name model_path) 3840) (run readonly_env fs_model).2 /\
  3840 <> 0 /\
  (run readonly_env fs_model).1.1 = 1.
Proof.
  assert (Hin : In (EvSystem (zip_base zip_name model_path) 3840)
                   (run readonly_env fs_model).2)
    by (vm_compute; auto 20).
  split; [exact Hin |]. split; [discriminate |].
  exact (proj2 (proj2 (archive_success_iff_zip_status readonly_env))
           fs_model _ 3840 Hin ltac:(discriminate)).
Defined.

Lemma append_grows (a b : string) : truthy b = true -> a +:+ b <> a.
Proof.
  intros Hb Heq. apply (f_equal String.length) in Heq.
  rewrite length_append in Heq. destruct b; [discriminate Hb |].
  simpl in Heq. lia.
Qed.

Lemma zip_base_contains_model (z p : string) : Str.contains p (zip_base z p).
Proof.
  exists ("zip -r " +:+ z +:+ " "), EmptyString.
  unfold zip_base. now rewrite !append_assoc, append_nil_r.
Qed.

(** The names fixed in [main]: the metadata path does not occur in the
    command that archives the model alone. *)
Lemma main_names_apart :
  ~ Str.contains (metadata_path_of model_path) (zip_base zip_name model_path).
Proof. rewrite <- containsb_spec. vm_compute. discriminate. Qed.

(** What the archiver passes to the shell. *)
Lemma zip_command_cases (E : env) (p z : string) (s : fs) cmd status :
  In (EvSystem cmd status) (trace (create_zip_archive E p z s)) ->
  (cmd = zip_base z p +:+ " " +:+ metadata_path_of p /\ metadata_available E p s)
  \/ (cmd = zip_base z p /\ ~ metadata_available E p s).
Proof.
  intros Hin. unfold metadata_available.
  archive_cases E p z s; in_trace Hin; injection Hin as <- <-.
  1-2: left; split; [reflexivity |]; do 3 eexists; split; [reflexivity |];
       rewrite lookup_insert_eq; eauto.
  all: right; split; [reflexivity |];
       intros (mp & s1 & t & Heq & _); discriminate Heq.
Qed.

(** C10. The command passed to the shell always contains the model path.
    It is the base command followed by the metadata path exactly when
    metadata creation returned a path that exists at that moment, and the
    base command alone otherwise; so, whenever the metadata path does not
    already occur in the base command, the command contains the metadata
    path if and only if metadata creation returned a path that exists.
    With the names fixed in [main] this holds in every run of the script. *)
Theorem zip_command_contents (E : env) :
  (forall p z s cmd status,
     In (EvSystem cmd status) (trace (create_zip_archive E p z s)) ->
     Str.contains p cmd /\
     (cmd = zip_base z p +:+ " " +:+ metadata_path_of p <->
      metadata_available E p s) /\
     (cmd = zip_base z p <-> ~ metadata_available E p s) /\
     (~ Str.contains (metadata_path_of p) (zip_base z p) ->
      (Str.contains (metadata_path_of p) cmd <-> metadata_available E p s))) /\
  (forall s cmd status,
     In (EvSystem cmd status) (run E s).2 ->
     Str.contains model_path cmd /\
     (Str.contains (metadata_path_of model_path) cmd <->
      metadata_available E model_path s)).
Proof.
  assert (Hgrow : forall z p,
            zip_base z p +:+ " " +:+ metadata_path_of p <> zip_base z p).
  { intros z p. apply append_grows. reflexivity. }
  assert (Hfun : forall p z s cmd status,
     In (EvSystem cmd status) (trace (create_zip_archive E p z s)) ->
     Str.contains p cmd /\
     (cmd = zip_base z p +:+ " " +:+ metadata_path_of p <->
      metadata_available E p s) /\
     (cmd = zip_base z p <-> ~ metadata_available E p s) /\
     (~ Str.contains (metadata_path_of p) (zip_base z p) ->
      (Str.contains (metadata_path_of p) cmd <-> metadata_available E p s))).
  { intros p z s cmd status Hin.
    destruct (zip_command_cases E p z s cmd status Hin) as [[-> Ha] | [-> Hna]].
    - split; [apply contains_append_r, zip_base_contains_model |].
      split; [tauto |]. split.
      + split; [intros Heq; now apply Hgrow in Heq | tauto].
      + intros _. split; [tauto | intros _].
        exists (zip_base z p +:+ " "), EmptyString.
        now rewrite !append_assoc, append_nil_r.
    - split; [apply zip_base_contains_model |].
      split; [|split].
      + split; [intros Heq; symmetry in Heq; now apply Hgrow in Heq | tauto].
      + tauto.
      + intros Hno. tauto. }
  split; [exact Hfun |].
  intros s cmd status Hin. apply run_system_event in Hin.
  destruct (Hfun model_path zip_name s cmd status Hin) as (Hc & _ & _ & Hm).
  split; [exact Hc | exact (Hm main_names_apart)].
Qed.

Lemma zip_command_contents_witness :
  In (EvSystem "zip -r fin_disease.zip fin_disease.pth fin_disease_info.txt" 0)
     (run local_env fs_model).2 /\
  Str.contains model_path
    "zip -r fin_disease.zip fin_disease.pth fin_disease_info.txt" /\
  metadata_available local_env model_path fs_model.
Proof.
  assert (Hin : In (EvSystem
                      "zip -r fin_disease.zip fin_disease.pth fin_disease_info.txt" 0)
                   (run local_env fs_model).2)
    by (vm_compute; auto 20).
  destruct (proj2 (zip_command_contents local_env) fs_model _ 0 Hin) as [Hc Hm].
  split; [exact Hin |]. split; [exact Hc |].
  apply Hm. rewrite <- containsb_spec. reflexivity.
Defined.

(** ** Order of the stages *)

Lemma guarded_split (P Q : event -> Prop) (t : list event) :
  guarded P Q t ->
  forall pre ev post, t = pre ++ ev :: post -> Q ev ->
  exists e', In e' pre /\ P e'.
Proof.
  induction t as [|e r IH]; intros Hg pre ev post Ht Hq.
  - destruct pre; discriminate Ht.
  - destruct Hg as [Hnq Hrest]. destruct pre as [|e0 pre]; simpl in Ht.
    + injection Ht as -> ->. contradiction.
    + injection Ht as -> ->. destruct Hrest as [Hp | Hg].
      * exists e0. split; [now left | exact Hp].
      * destruct (IH Hg pre ev post eq_refl Hq) as (e' & Hin & Hp).
        exists e'. split; [now right | exact Hp].
Qed.

Ltac not_after_validation :=
  let H := fresh in intros [H | H]; discriminate H.

Ltac not_transfer :=
  let H := fresh in
  let Hs := fresh in
  let line := fresh in
  intros [H | (line & H & Hs)];
  [ discriminate H
  | try discriminate H; injection H as <-;
    destruct Hs as [Hs | [Hs | Hs]];
    cbv [String.append Str.repeat Msg.simulating Msg.would_download
         Msg.simulation_complete Msg.not_found Msg.is_empty Msg.validated
         Msg.metadata_created Msg.metadata_warning Msg.creating_zip
         Msg.zip_failed Msg.zip_missing Msg.zipped Msg.download_error
         model_path zip_name] in Hs;
    discriminate Hs ].

Ltac solve_guarded notq isp :=
  repeat first
    [ exact I
    | split; [ notq | first [ left; solve [isp] | right ] ] ].

(** The whole run, case by case, as an explicit trace. *)
Ltac run_cases E s :=
  let HE := fresh "HE" in
  rewrite run_unfold; unfold colab_note, banner;
  destruct (IN_COLAB E) eqn:HE;
  archive_cases E model_path zip_name s;
  try match goal with
  | _ : shell E _ _ = (_, ?s2) |- context [download_model_zip E zip_name ?s2] =>
      let stz := fresh "stz" in
      let Hl := fresh "Hl" in
      destruct (s2 !! zip_name) as [stz|] eqn:Hl;
      [ first
          [ rewrite (download_colab E zip_name s2 stz HE Hl);
            let e := fresh "e" in
            destruct (colab_download E zip_name s2) as [e|];
            [destruct (is_Exception e) |]
          | rewrite (download_simulated E zip_name s2 stz HE Hl) ]
      | rewrite (download_missing E zip_name s2 Hl) ]
  end;
  cbn [after_download exit_status app fst snd].

Lemma archive_guarded (E : env) (p z : string) (s : fs) :
  guarded (validated_event p s) after_validation
    (trace (create_zip_archive E p z s)).
Proof.
  archive_cases E p z s; cbn [guarded];
    solve_guarded not_after_validation ltac:(split; [now exists st | now eexists]).
Qed.

Lemma run_guarded_validation (E : env) (s : fs) :
  guarded (validated_event model_path s) after_validation (run E s).2.
Proof.
  run_cases E s; cbn [guarded];
    solve_guarded not_after_validation ltac:(split; [now exists st | now eexists]).
Qed.

Lemma run_guarded_archive (E : env) (s : fs) :
  guarded archived_event (transfer_event zip_name) (run E s).2.
Proof.
  run_cases E s; try (apply Z.eqb_eq in Hz; subst); cbn [guarded];
    solve_guarded not_transfer ltac:(now eexists).
Qed.

(** C7. In every run, an attempt to write the metadata file or a call of
    the zip command comes only after validation of the model passed (and
    printed so), and the transfer, real or simulated, comes only after the
    zip command returned status zero.  So when validation fails nothing is
    written, archived or transferred, and when the zip command fails
    nothing is transferred. *)
Theorem pipeline_stage_order (E : env) :
  (forall p z s pre ev post,
     trace (create_zip_archive E p z s) = pre ++ ev :: post ->
     after_validation ev ->
     valid_model p s /\ exists size, In (EvPrint (Msg.validated p size)) pre) /\
  (forall s pre ev post,
     (run E s).2 = pre ++ ev :: post ->
     (after_validation ev ->
      valid_model model_path s /\
      exists size, In (EvPrint (Msg.validated model_path size)) pre) /\
     (transfer_event zip_name ev ->
      valid_model model_path s /\ exists cmd, In (EvSystem cmd 0) pre)) /\
  (forall s ev,
     ~ valid_model model_path s -> In ev (run E s).2 ->
     ~ after_validation ev /\ ~ transfer_event zip_name ev) /\
  (forall s cmd status ev,
     In (EvSystem cmd status) (run E s).2 -> status <> 0 ->
     In ev (run E s).2 -> ~ transfer_event zip_name ev).
Proof.
  assert (Hval : forall s pre ev post,
     (run E s).2 = pre ++ ev :: post -> after_validation ev ->
     valid_model model_path s /\
     exists size, In (EvPrint (Msg.validated model_path size)) pre).
  { intros s pre ev post Ht Hq.
    destruct (guarded_split _ _ _ (run_guarded_validation E s) pre ev post Ht Hq)
      as (e' & Hin & Hv & size & ->).
    split; [exact Hv | now exists size]. }
  assert (Harch : forall s pre ev post,
     (run E s).2 = pre ++ ev :: post -> transfer_event zip_name ev ->
     exists cmd, In (EvSystem cmd 0) pre).
  { intros s pre ev post Ht Hq.
    destruct (guarded_split _ _ _ (run_guarded_archive E s) pre ev post Ht Hq)
      as (e' & Hin & cmd & ->).
    now exists cmd. }
  assert (Hboth : forall s pre ev post,
     (run E s).2 = pre ++ ev :: post -> transfer_event zip_name ev ->
     valid_model model_path s /\ exists cmd, In (EvSystem cmd 0) pre).
  { intros s pre ev post Ht Hq.
    destruct (Harch s pre ev post Ht Hq) as [cmd Hin]. split; [|now exists cmd].
    destruct (in_split _ _ Hin) as (pre' & post' & ->).
    rewrite <- app_assoc in Ht. simpl in Ht.
    apply (Hval s pre' (EvSystem cmd 0) _ Ht). now right. }
  split; [|split; [|split]].
  - intros p z s pre ev post Ht Hq.
    destruct (guarded_split _ _ _ (archive_guarded E p z s) pre ev post Ht Hq)
      as (e' & Hin & Hv & size & ->).
    split; [exact Hv | now exists size].
  - intros s pre ev post Ht. split; [apply (Hval s pre ev post Ht) |].
    apply (Hboth s pre ev post Ht).
  - intros s ev Hn Hin. destruct (in_split _ _ Hin) as (pre & post & Ht).
    split; intros Hq.
    + now destruct (Hval s pre ev post Ht Hq).
    + now destruct (Hboth s pre ev post Ht Hq).
  - intros s cmd status ev Hsys Hne Hin Hq.
    destruct (in_split _ _ Hin) as (pre & post & Ht).
    destruct (Harch s pre ev post Ht Hq) as [cmd0 Hin0].
    assert (Hin0' : In (EvSystem cmd0 0) (run E s).2).
    { rewrite Ht, in_app_iff. now left. }
    apply run_system_event in Hsys, Hin0'.
    pose proof (archive_result_of_status E _ _ _ _ _ Hsys) as H1.
    pose proof (archive_result_of_status E _ _ _ _ _ Hin0') as H2.
    rewrite H1 in H2. injection H2 as H2. apply Z.eqb_eq in H2. contradiction.
Qed.

Lemma pipeline_stage_order_witness :
  let t := (run local_env fs_model).2 in
  let ev := EvSystem "zip -r fin_disease.zip fin_disease.pth fin_disease_info.txt" 0 in
  t = firstn 8 t ++ ev :: skipn 9 t /\
  after_validation ev /\
  valid_model model_path fs_model.
Proof.
  set (t := (run local_env fs_model).2).
  set (ev := EvSystem "zip -r fin_disease.zip fin_disease.pth fin_disease_info.txt" 0).
  assert (Ht : t = firstn 8 t ++ ev :: skipn 9 t) by reflexivity.
  assert (Hq : after_validation ev) by (now right).
  split; [exact Ht |]. split; [exact Hq |].
  exact (proj1 (proj1 (proj1 (proj2 (pipeline_stage_order local_env))
                        fs_model (firstn 8 t) ev (skipn 9 t) Ht) Hq)).
Defined.

(** * Further properties of the script *)

(** ** The size string *)

Lemma round53_small (n : Z) : n < 2 ^ 53 -> Float.round53 n = n.
Proof.
  intros H. unfold Float.round53.
  destruct (n <? 2 ^ 53) eqn:Hlt; [reflexivity |].
  apply Z.ltb_ge in Hlt. lia.
Qed.

Lemma round_half_even_exact (k den : Z) :
  0 < den -> Float.round_half_even (k * den) den = k.
Proof.
  intros Hd. unfold Float.round_half_even.
  rewrite Z.div_mul, Z.mod_mul by lia.
  replace (2 * 0) with 0 by reflexivity.
  destruct (den <? 0) eqn:H1; [apply Z.ltb_lt in H1; lia |].
  destruct (den =? 0) eqn:H2; [apply Z.eqb_eq in H2; lia |].
  reflexivity.
Qed.

Lemma round_half_even_below_half (num den : Z) :
  0 <= num -> 2 * num < den -> Float.round_half_even num den = 0.
Proof.
  intros H0 H1. unfold Float.round_half_even.
  rewrite Z.div_small, Z.mod_small by lia.
  destruct (den <? 2 * num) eqn:H2; [apply Z.ltb_lt in H2; lia |].
  destruct (den =? 2 * num) eqn:H3; [apply Z.eqb_eq in H3; lia |].
  reflexivity.
Qed.

Lemma format_mb_2f_small (n : Z) :
  0 <= n < 5243 -> Float.format_mb_2f n = "0.00".
Proof.
  intros H. unfold Float.format_mb_2f.
  rewrite round53_small by lia.
  rewrite round_half_even_below_half by lia.
  reflexivity.
Qed.

Lemma format_mb_2f_whole (k : Z) :
  0 <= k -> k * 1048576 < 2 ^ 53 ->
  Float.format_mb_2f (k * 1048576) = Str.of_Z k +:+ ".00".
Proof.
  intros H0 H1. unfold Float.format_mb_2f.
  rewrite round53_small by lia.
  replace (k * 1048576 * 100) with (k * 100 * (1024 * 1024)) by lia.
  rewrite round_half_even_exact by lia.
  rewrite Z.div_mul, Z.mod_mul by lia.
  reflexivity.
Qed.

(** X1. A file of fewer than 5243 bytes is reported as "0.00 MB": its
    size is below half a hundredth of a mebibyte. *)
Theorem get_file_size_mb_small_file (p : string) (s : fs) (st : stat) :
  s !! p = Some st -> (st_size st < 5243)%N ->
  value (get_file_size_mb p s) = Ok "0.00 MB".
Proof.
  intros H Hlt. rewrite (get_file_size_mb_found p s st H). cbn [value fst].
  rewrite format_mb_2f_small by lia. reflexivity.
Qed.

Lemma get_file_size_mb_small_file_witness :
  fs_model !! model_path = Some sample_model /\
  (st_size sample_model < 5243)%N /\
  value (get_file_size_mb model_path fs_model) = Ok "0.00 MB".
Proof.
  split; [reflexivity |]. split; [reflexivity |].
  apply (get_file_size_mb_small_file model_path fs_model sample_model);
    reflexivity.
Defined.

(** X2. A file of exactly [k] mebibytes (below 2^53 bytes) is reported as
    [k] followed by ".00 MB". *)
Theorem get_file_size_mb_whole_mebibytes
    (p : string) (s : fs) (st : stat) (k : Z) :
  s !! p = Some st -> 0 <= k -> Z.of_N (st_size st) = k * 1048576 ->
  k * 1048576 < 2 ^ 53 ->
  value (get_file_size_mb p s) = Ok (Str.of_Z k +:+ ".00 MB").
Proof.
  intros H H0 Hk Hb. rewrite (get_file_size_mb_found p s st H). cbn [value fst].
  rewrite Hk, format_mb_2f_whole by assumption.
  now rewrite append_assoc.
Qed.

Lemma get_file_size_mb_whole_mebibytes_witness :
  let st := {| st_size := 15728640; st_ctime := "1729999999.25" |} in
  let s : fs := {[ model_path := st ]} in
  s !! model_path = Some st /\
  value (get_file_size_mb model_path s) = Ok "15.00 MB".
Proof.
  set (st := {| st_size := 15728640; st_ctime := "1729999999.25" |}).
  set (s := ({[ model_path := st ]} : fs)).
  split; [reflexivity |].
  apply (get_file_size_mb_whole_mebibytes model_path s st 15);
    [reflexivity | lia | reflexivity | reflexivity].
Defined.

(** ** Where the metadata file goes *)

Lemma take_drop (n : nat) (p : string) : Str.take n p +:+ Str.drop n p = p.
Proof.
  revert p. induction n as [|n IH]; intros [|a p]; try reflexivity.
  simpl. rewrite append_cons. now f_equal.
Qed.

Lemma take_length_app (pre x : string) :
  Str.take (String.length pre) (pre +:+ x) = pre.
Proof.
  induction pre as [|a pre IH]; [now destruct x |].
  rewrite append_cons. simpl. now f_equal.
Qed.

Lemma drop_length_app (pre x : string) :
  Str.drop (String.length pre) (pre +:+ x) = x.
Proof. induction pre as [|a pre IH]; [reflexivity | exact IH]. Qed.

(** Two ways to cut the same string at a character: the later cut lies
    in what follows the earlier one. *)
Lemma cut_twice (pre1 post1 pre2 post2 : string) (a b : ascii) :
  pre1 +:+ String a post1 = pre2 +:+ String b post2 ->
  (String.length pre1 < String.length pre2)%nat ->
  exists m, pre2 = pre1 +:+ String a m /\ post1 = m +:+ String b post2.
Proof.
  revert pre2. induction pre1 as [|c pre1 IH]; intros [|x pre2] Heq Hlt;
    simpl in Hlt; try lia.
  - rewrite append_nil_l, append_cons in Heq. injection Heq as -> ->.
    now exists pre2.
  - rewrite !append_cons in Heq. injection Heq as -> Heq.
    destruct (IH pre2 Heq ltac:(lia)) as (m & -> & ->). now exists m.
Qed.

(** [splitext] either keeps the path whole or cuts it at its last dot,
    which then lies after the last slash. *)
Lemma splitext_cases (p : string) :
  os_path.splitext p = (p, EmptyString)
  \/ exists root rest,
       p = root +:+ String "."%char rest /\
       os_path.splitext p = (root, String "."%char rest) /\
       Str.rfind "/"%char p < Z.of_nat (String.length root).
Proof.
  unfold os_path.splitext.
  destruct (Str.rfind "/"%char p <? Str.rfind "."%char p) eqn:Hlt;
    [| now left].
  destruct (os_path.has_non_dot _); [| now left].
  cbn [andb]. apply Z.ltb_lt in Hlt. right.
  unfold Str.rfind in Hlt |- *.
  destruct (rfind_from_spec "."%char p 0 (-1))
    as [[_ Hd] | (pre & post & Hp & _ & Hd)]; rewrite Hd in Hlt |- *.
  - exfalso.
    destruct (rfind_from_spec "/"%char p 0 (-1))
      as [[_ Hs] | (pre' & post' & _ & _ & Hs)]; rewrite Hs in Hlt; lia.
  - exists pre, post. split; [exact Hp |]. split; [| lia].
    replace (Z.to_nat (0 + Z.of_nat (String.length pre)))
      with (String.length pre) by lia.
    subst p. now rewrite take_length_app, drop_length_app.
Qed.

(** The extension that [splitext] cuts off is empty or starts with a
    dot, and root and extension put together give the path back. *)
Theorem splitext_round_trip (p : string) :
  (os_path.splitext p).1 +:+ (os_path.splitext p).2 = p /\
  ((os_path.splitext p).2 = EmptyString \/
   exists rest, (os_path.splitext p).2 = String "."%char rest).
Proof.
  destruct (splitext_cases p) as [-> | (root & rest & Hp & -> & _)];
    cbn [fst snd].
  - split; [apply append_nil_r | now left].
  - split; [now symmetry | right; now exists rest].
Qed.




Lemma not_contains_append (c a b : string) :
  ~ Str.contains c (a +:+ b) -> ~ Str.contains c a /\ ~ Str.contains c b.
Proof.
  intros Hn. split; intros Hc; apply Hn.
  - now apply contains_append_r.
  - now apply contains_append_l.
Qed.

(** X5. The metadata file is a sibling of the model file: its path is
    the directory part of the model path (what precedes the basename)
    followed by a name without a slash that ends in "_info.txt". *)
Theorem metadata_path_sibling (p : string) :
  exists dir stem,
    p = dir +:+ os_path.basename p /\
    (dir = EmptyString \/ Str.ends_with slash dir) /\
    ~ Str.contains slash (os_path.basename p) /\
    metadata_path_of p = dir +:+ stem +:+ "_info.txt" /\
    ~ Str.contains slash stem.
Proof.
  unfold metadata_path_of, os_path.basename.
  pose proof (splitext_cases p) as Hx. unfold Str.rfind in Hx |- *.
  destruct (rfind_from_spec "/"%char p 0 (-1))
    as [[Hno Hs] | (pre1 & post1 & Hp1 & Hno1 & Hs)]; rewrite Hs in Hx |- *.
  - exists EmptyString. simpl Str.drop.
    destruct Hx as [-> | (root & rest & Hp & -> & _)]; cbn [fst].
    + exists p. rewrite !append_nil_l. auto.
    + exists root. rewrite !append_nil_l.
      repeat split; auto. rewrite Hp in Hno.
      now apply not_contains_append in Hno.
  - replace (Z.to_nat (0 + Z.of_nat (String.length pre1) + 1))
      with (S (String.length pre1)) by lia.
    assert (Hb : Str.drop (S (String.length pre1)) p = post1)
      by (rewrite Hp1; apply drop_past).
    rewrite Hb. exists (pre1 +:+ slash).
    assert (Hdir : p = (pre1 +:+ slash) +:+ post1)
      by (now rewrite append_assoc).
    assert (Hend : Str.ends_with slash (pre1 +:+ slash)) by (now exists pre1).
    destruct Hx as [-> | (root & rest & Hp & -> & Hlt)]; cbn [fst].
    + exists post1. repeat split; auto.
      rewrite Hp1. unfold slash. now rewrite !append_assoc.
    + rewrite Hp1 in Hp.
      destruct (cut_twice pre1 post1 root rest _ _ Hp ltac:(lia))
        as (m & -> & Hm).
      exists m. repeat split; auto.
      * unfold slash. now rewrite !append_assoc.
      * rewrite Hm in Hno1. now apply not_contains_append in Hno1.
Qed.

(** ** The functions on their own *)

(** X6. [validate_model_file] never raises and never touches the file
    system; it prints exactly one line and returns true exactly when the
    file exists and is not empty. *)
Theorem validate_model_file_decides (p : string) (s : fs) :
  exists b line,
    validate_model_file p s = (Ok b, s, [EvPrint line]) /\
    (b = true <-> valid_model p s) /\
    Str.contains p line.
Proof.
  destruct (s !! p) as [st|] eqn:H.
  - destruct (N.eq_dec (st_size st) 0%N) as [H0 | H0].
    + exists false, (Msg.is_empty p). rewrite (validate_empty p s st H H0).
      split; [reflexivity |]. split; [| apply contains_intro].
      split; [discriminate |]. intros (st' & H' & Hn). congruence.
    + exists true, (Msg.validated p (size_text st)).
      rewrite (validate_ok p s st H H0).
      split; [reflexivity |]. split; [| apply contains_intro].
      split; [intros _; now exists st | reflexivity].
  - exists false, (Msg.not_found p). rewrite (validate_missing p s H).
    split; [reflexivity |]. split; [| apply contains_intro].
    split; [discriminate |]. intros (st' & H' & _). congruence.
Qed.

(** X7. Called on a path that does not exist, [create_model_metadata]
    raises: reading the creation time fails outside the [try], before
    anything is written or printed. *)
Theorem create_model_metadata_missing_model_raises
    (E : env) (p : string) (s : fs) :
  s !! p = None ->
  (exists msg, value (create_model_metadata E p s) = Raise (OSError msg)) /\
  trace (create_model_metadata E p s) = [] /\
  final_fs (create_model_metadata E p s) = s.
Proof.
  intros H. destruct (create_model_metadata_missing E p s H) as [msg ->].
  split; [now exists msg | split; reflexivity].
Qed.

Lemma create_model_metadata_missing_model_raises_witness :
  (∅ : fs) !! model_path = None /\
  trace (create_model_metadata local_env model_path ∅) = [].
Proof.
  split; [reflexivity |].
  exact (proj1 (proj2 (create_model_metadata_missing_model_raises
                         local_env model_path ∅ eq_refl))).
Defined.

(** X8. For a model that exists, [create_model_metadata] never raises.
    It returns the metadata path exactly when the write succeeded; the
    path then exists with the length of the report as its size.  It
    returns None exactly when the write failed. *)
Theorem create_model_metadata_result
    (E : env) (p : string) (s : fs) (st : stat) :
  s !! p = Some st ->
  (value (create_model_metadata E p s) = Ok (Some (metadata_path_of p)) /\
   (exists content,
      In (EvWrite (metadata_path_of p) content None)
         (trace (create_model_metadata E p s)) /\
      exists st',
        final_fs (create_model_metadata E p s) !! metadata_path_of p = Some st' /\
        st_size st' = N.of_nat (String.length content)))
  \/
  (value (create_model_metadata E p s) = Ok None /\
   exists content msg,
     In (EvWrite (metadata_path_of p) content (Some msg))
        (trace (create_model_metadata E p s))).
Proof.
  intros H. rewrite (create_model_metadata_found E p s st H).
  destruct (open_w E s (metadata_path_of p) (metadata_text p st))
    as [ctime | msg remains]; cbn [value trace final_fs fst snd].
  - left. split; [reflexivity |].
    exists (metadata_text p st). split; [now left |].
    exists (written (metadata_text p st) ctime).
    split; [apply lookup_insert_eq | reflexivity].
  - right. split; [reflexivity |].
    exists (metadata_text p st), msg. now left.
Qed.

Lemma create_model_metadata_result_witness :
  fs_model !! model_path = Some sample_model /\
  value (create_model_metadata local_env model_path fs_model)
  = Ok (Some "fin_disease_info.txt") /\
  value (create_model_metadata readonly_env model_path fs_model) = Ok None.
Proof.
  split; [reflexivity |]. split.
  - destruct (create_model_metadata_result local_env model_path fs_model
                sample_model eq_refl) as [[Hv _] | [Hv _]];
      [exact Hv | discriminate Hv].
  - destruct (create_model_metadata_result readonly_env model_path fs_model
                sample_model eq_refl) as [[Hv _] | [Hv _]];
      [discriminate Hv | exact Hv].
Defined.


Ltac not_simulated Hs :=
  destruct Hs as [Hs | [Hs | Hs]];
  cbv [String.append Str.repeat Msg.simulating Msg.would_download
       Msg.simulation_complete Msg.not_found Msg.is_empty Msg.validated
       Msg.metadata_created Msg.metadata_warning Msg.creating_zip
       Msg.zip_failed Msg.zip_missing Msg.zipped Msg.download_error
       model_path zip_name] in Hs;
  discriminate Hs.

(** X10. Inside the notebook environment, for an archive that exists,
    [download_model_zip] calls the platform's transfer function on the
    archive and prints no line of the simulated transfer.  It returns
    true when the call returns, false (after printing the error) when
    the call raises an [Exception], and lets anything else propagate.
    The file system is not touched. *)
Theorem download_model_zip_in_colab (E : env) (z : string) (s : fs) :
  IN_COLAB E = true -> is_Some (s !! z) ->
  final_fs (download_model_zip E z s) = s /\
  In (EvDownload z) (trace (download_model_zip E z s)) /\
  (forall line, In (EvPrint line) (trace (download_model_zip E z s)) ->
                ~ simulated_line z line) /\
  match colab_download E z s with
  | None => value (download_model_zip E z s) = Ok true
  | Some e =>
      if is_Exception e then
        value (download_model_zip E z s) = Ok false /\
        In (EvPrint (Msg.download_error (exn_str e)))
           (trace (download_model_zip E z s))
      else value (download_model_zip E z s) = Raise e
  end.
Proof.
  intros HE [st H]. rewrite (download_colab E z s st HE H).
  destruct (colab_download E z s) as [e|]; [destruct (is_Exception e) |];
    cbn [value trace final_fs fst snd];
    (split; [reflexivity |]); (split; [simpl; auto |]);
    (split; [| try split; simpl; auto 10]);
    intros line Hin Hs; in_trace Hin; injection Hin as <-; not_simulated Hs.
Qed.

Lemma download_model_zip_in_colab_witness :
  IN_COLAB colab_env = true /\ is_Some (fs_zip !! zip_name) /\
  In (EvDownload zip_name) (trace (download_model_zip colab_env zip_name fs_zip)).
Proof.
  split; [reflexivity |]. split; [now exists sample_zip |].
  exact (proj1 (proj2 (download_model_zip_in_colab colab_env zip_name fs_zip
                         eq_refl (ex_intro _ sample_zip eq_refl)))).
Defined.

(** The whole run, case by case, keeping what each answer was. *)
Ltac run_cases_eq E s :=
  let HE := fresh "HE" in
  rewrite ?run_unfold; unfold colab_note, banner;
  destruct (IN_COLAB E) eqn:HE;
  archive_cases E model_path zip_name s;
  try match goal with
  | _ : shell E _ _ = (_, ?s2) |- context [download_model_zip E zip_name ?s2] =>
      let stz := fresh "stz" in
      let Hl := fresh "Hl" in
      destruct (s2 !! zip_name) as [stz|] eqn:Hl;
      [ first
          [ rewrite (download_colab E zip_name s2 stz HE Hl);
            let e := fresh "e" in
            let Hd := fresh "Hd" in
            let He := fresh "He" in
            destruct (colab_download E zip_name s2) as [e|] eqn:Hd;
            [destruct (is_Exception e) eqn:He |]
          | rewrite (download_simulated E zip_name s2 stz HE Hl) ]
      | rewrite (download_missing E zip_name s2 Hl) ]
  end;
  cbn [after_download exit_status app fst snd].

(** X11. The transfer matches the environment in every run: outside the
    notebook environment the platform's transfer function is never
    called, and inside it no line of the simulated transfer is printed. *)
Theorem transfer_matches_environment (E : env) (s : fs) :
  (IN_COLAB E = false -> forall path, ~ In (EvDownload path) (run E s).2) /\
  (IN_COLAB E = true ->
   forall line, In (EvPrint line) (run E s).2 -> ~ simulated_line zip_name line).
Proof.
  run_cases_eq E s; split; intros HE'; try discriminate HE'.
  all: first
         [ intros line Hin Hs; in_trace Hin; injection Hin as <-; not_simulated Hs
         | intros path Hin; in_trace Hin ].
Qed.

Lemma transfer_matches_environment_witness :
  IN_COLAB local_env = false /\
  ~ In (EvDownload zip_name) (run local_env fs_model).2.
Proof.
  split; [reflexivity |].
  exact (proj1 (transfer_matches_environment local_env fs_model) eq_refl zip_name).
Defined.

(** ** Whole runs *)

(** X12. A run that exits with status 0 had a valid model, a zip command
    that returned status 0, and ends with the archive on the file
    system. *)
Theorem run_exit_zero_sound (E : env) (s : fs) :
  (run E s).1.1 = 0 ->
  valid_model model_path s /\
  (exists cmd, In (EvSystem cmd 0) (run E s).2) /\
  is_Some ((run E s).1.2 !! zip_name).
Proof.
  run_cases_eq E s; intros H; try discriminate H;
    apply Z.eqb_eq in Hz; subst;
    (split; [now exists st |]); (split; [eexists; simpl; auto 20 | eauto]).
Qed.

Lemma run_exit_zero_sound_witness :
  (run local_env fs_model).1.1 = 0 /\
  is_Some ((run local_env fs_model).1.2 !! zip_name).
Proof.
  split; [reflexivity |].
  exact (proj2 (proj2 (run_exit_zero_sound local_env fs_model eq_refl))).
Defined.

(** X13. With a valid model, a shell that returns status 0 and leaves
    the archive behind, and, inside the notebook environment, a transfer
    call that returns, the run exits with status 0 and its last line
    reports success.  A failed metadata write does not prevent it. *)
Theorem run_succeeds (E : env) (s : fs) :
  valid_model model_path s ->
  (forall cmd s', (shell E cmd s').1 = 0 /\
                  is_Some ((shell E cmd s').2 !! zip_name)) ->
  (IN_COLAB E = true -> forall s', colab_download E zip_name s' = None) ->
  (run E s).1.1 = 0 /\
  exists t, (run E s).2
            = t ++ [EvPrint "🎉 Model download process completed successfully!"].
Proof.
  intros Hv Hshell Hdl.
  run_cases_eq E s; try contradiction;
    match goal with
    | Hsh : shell E ?c ?s' = _ |- _ =>
        destruct (Hshell c s') as [H0 H1]; rewrite Hsh in H0, H1;
        cbn [fst snd] in H0, H1
    end;
    try (subst; discriminate Hz);
    try (rewrite Hl in H1; destruct H1 as [? H1]; discriminate H1);
    try (rewrite (Hdl eq_refl) in Hd; discriminate Hd);
    (split; [reflexivity |]);
    match goal with
    | |- exists t, ?l = _ => exists (removelast l); reflexivity
    end.
Qed.

Lemma run_succeeds_witness :
  valid_model model_path fs_model /\ (run readonly_env fs_model).1.1 = 1 /\
  (run local_env fs_model).1.1 = 0.
Proof.
  assert (Hv : valid_model model_path fs_model)
    by (exists sample_model; split; [reflexivity | discriminate]).
  split; [exact Hv |]. split; [reflexivity |].
  refine (proj1 (run_succeeds local_env fs_model Hv _ _)).
  - intros cmd s'. split; [reflexivity |].
    exists sample_zip. apply lookup_insert_eq.
  - discriminate.
Defined.

(** X14. When the zip command returns status 0 but no archive is there
    afterwards, the run reports that the zip file was not created and
    exits with status 1, without any transfer. *)
Theorem run_archive_not_created (E : env) (s : fs) (cmd : string) :
  In (EvSystem cmd 0) (run E s).2 ->
  (run E s).1.2 !! zip_name = None ->
  (run E s).1.1 = 1 /\
  In (EvPrint (Msg.zip_missing zip_name)) (run E s).2 /\
  (forall ev, In ev (run E s).2 -> ~ transfer_event zip_name ev).
Proof.
  run_cases_eq E s; intros Hin Hnone; cbn [fst snd] in Hnone;
    try congruence; in_trace Hin;
    try (injection Hin as _ Hin; subst; discriminate Hz);
    (split; [reflexivity |]); (split; [simpl; auto 20 |]);
    intros ev Hev; in_trace Hev; subst ev; not_transfer.
Qed.

(** A shell whose zip reports success without producing anything. *)
Lemma run_archive_not_created_witness :
  let E := {| IN_COLAB := false;
              open_w := fun _ _ _ => WriteOk "1730000000.5";
              shell := fun _ s => (0, s);
              colab_download := fun _ _ => None |} in
  In (EvSystem "zip -r fin_disease.zip fin_disease.pth fin_disease_info.txt" 0)
     (run E fs_model).2 /\
  (run E fs_model).1.2 !! zip_name = None /\
  (run E fs_model).1.1 = 1.
Proof.
  set (E := {| IN_COLAB := false;
               open_w := fun _ _ _ => WriteOk "1730000000.5";
               shell := fun _ s => (0, s);
               colab_download := fun _ _ => None |}).
  assert (Hin : In (EvSystem
                      "zip -r fin_disease.zip fin_disease.pth fin_disease_info.txt" 0)
                   (run E fs_model).2) by (vm_compute; auto 20).
  assert (Hnone : (run E fs_model).1.2 !! zip_name = None) by reflexivity.
  split; [exact Hin |]. split; [exact Hnone |].
  exact (proj1 (run_archive_not_created E fs_model _ Hin Hnone)).
Defined.

(** X15. The exit status of a run is 0 or 1, unless the platform's
    transfer function itself raises [SystemExit]. *)
Theorem run_exit_status_binary (E : env) (s : fs) :
  (forall z s' code, colab_download E z s' <> Some (SystemExit code)) ->
  (run E s).1.1 = 0 \/ (run E s).1.1 = 1.
Proof.
  intros Hno. run_cases_eq E s; auto.
  all: destruct e as [msg | msg | code]; try discriminate He;
    now apply Hno in Hd.
Qed.

Lemma run_exit_status_binary_witness :
  (run colab_env fs_model).1.1 = 0 \/ (run colab_env fs_model).1.1 = 1.
Proof.
  apply (run_exit_status_binary colab_env fs_model).
  intros z s' code H. discriminate H.
Defined.

(** ** The test harness against the script *)











Lemma sum_bounds (results : list bool) :
  0 <= Harness.sum results <= Z.of_nat (length results).
Proof.
  induction results as [|b r IH]; simpl Harness.sum; simpl length; [lia |].
  destruct b; lia.
Qed.

Lemma sum_all (results : list bool) :
  Harness.sum results = Z.of_nat (length results) <->
  forall b, In b results -> b = true.
Proof.
  induction results as [|b r IH]; simpl Harness.sum; simpl length.
  - split; [intros _ b [] | reflexivity].
  - pose proof (sum_bounds r) as Hb. destruct b.
    + split.
      * intros H b [<- | Hin]; [reflexivity |]. apply IH; [lia | exact Hin].
      * intros H. assert (Hr : Harness.sum r = Z.of_nat (length r))
          by (apply IH; intros b Hin; apply H; now right).
        lia.
    + split; [lia |]. intros H. specialize (H false (or_introl eq_refl)).
      discriminate H.
Qed.

(** X18. The harness exits with status 0 exactly when every test
    returned True, and with status 1 otherwise. *)
Theorem harness_exit_status (tests : list (string * bool)) :
  ((Harness.main tests).1 = 0 <->
   forall name b, In (name, b) tests -> b = true) /\
  ((Harness.main tests).1 = 0 \/ (Harness.main tests).1 = 1).
Proof.
  unfold Harness.main.
  pose proof (sum_all (map snd tests)) as Hall.
  destruct (Harness.sum (map snd tests) =? Z.of_nat (length (map snd tests)))
    eqn:Heq; cbn [fst].
  - apply Z.eqb_eq in Heq. split; [| now left].
    split; [| reflexivity]. intros _ name b Hin.
    apply (proj1 Hall Heq). apply in_map_iff. now exists (name, b).
  - apply Z.eqb_neq in Heq. split; [| now right].
    split; [discriminate |]. intros H. exfalso. apply Heq, Hall.
    intros b Hin. apply in_map_iff in Hin as [[name b'] [<- Hin]].
    exact (H name b' Hin).
Qed.

(** ** How close the reported size is *)

Lemma round_half_even_nearest (num den : Z) :
  0 < den ->
  2 * Z.abs (Float.round_half_even num den * den - num) <= den.
Proof.
  intros Hd. unfold Float.round_half_even.
  pose proof (Z.div_mod num den ltac:(lia)) as Hdm.
  pose proof (Z.mod_pos_bound num den Hd) as Hr.
  destruct (den <? 2 * (num mod den)) eqn:H1; cbn [orb].
  - apply Z.ltb_lt in H1. nia.
  - apply Z.ltb_ge in H1.
    destruct (den =? 2 * (num mod den)) eqn:H2; cbn [andb].
    + apply Z.eqb_eq in H2. destruct (Z.odd (num / den)); nia.
    + nia.
Qed.

Lemma round_half_even_nonneg (num den : Z) :
  0 < den -> 0 <= num -> 0 <= Float.round_half_even num den.
Proof.
  intros Hd Hn. unfold Float.round_half_even.
  pose proof (Z.div_pos num den Hn Hd).
  destruct (_ || _); lia.
Qed.

Lemma two_digits_length (d : Z) :
  0 <= d < 100 -> String.length (Float.two_digits d) = 2%nat.
Proof.
  intros H. rewrite <- (Z2Nat.id d) by lia.
  assert (Hn : (Z.to_nat d < 100)%nat) by lia.
  generalize dependent (Z.to_nat d). intros n Hn.
  do 100 (destruct n as [|n]; [reflexivity |]). lia.
Qed.

(** X3. For a file below 2^53 bytes the size string is a whole part, a
    point, exactly two digits and " MB", and the number of hundredths it
    shows is within half a hundredth of the size in mebibytes. *)
Theorem get_file_size_mb_accuracy (p : string) (s : fs) (st : stat) :
  s !! p = Some st -> Z.of_N (st_size st) < 2 ^ 53 ->
  exists h,
    0 <= h /\
    2 * Z.abs (h * 1048576 - 100 * Z.of_N (st_size st)) <= 1048576 /\
    value (get_file_size_mb p s)
    = Ok (Str.of_Z (h / 100) +:+ "." +:+ Float.two_digits (h mod 100) +:+ " MB") /\
    String.length (Float.two_digits (h mod 100)) = 2%nat.
Proof.
  intros H Hb.
  exists (Float.round_half_even (Z.of_N (st_size st) * 100) (1024 * 1024)).
  split; [apply round_half_even_nonneg; lia |]. split.
  - pose proof (round_half_even_nearest (Z.of_N (st_size st) * 100)
                  (1024 * 1024) ltac:(lia)) as Hn.
    replace (1024 * 1024) with 1048576 in Hn by reflexivity.
    replace (100 * Z.of_N (st_size st)) with (Z.of_N (st_size st) * 100) by lia.
    exact Hn.
  - split.
    + rewrite (get_file_size_mb_found p s st H). cbn [value fst].
      unfold Float.format_mb_2f. rewrite round53_small by exact Hb.
      now rewrite !append_assoc.
    + apply two_digits_length, Z.mod_pos_bound. lia.
Qed.

Lemma get_file_size_mb_accuracy_witness :
  let st := {| st_size := 123456789; st_ctime := "1729999999.25" |} in
  let s : fs := {[ model_path := st ]} in
  s !! model_path = Some st /\ Z.of_N (st_size st) < 2 ^ 53 /\
  value (get_file_size_mb model_path s) = Ok "117.74 MB" /\
  exists h, 2 * Z.abs (h * 1048576 - 100 * 123456789) <= 1048576.
Proof.
  set (st := {| st_size := 123456789; st_ctime := "1729999999.25" |}).
  set (s := ({[ model_path := st ]} : fs)).
  split; [reflexivity |]. split; [reflexivity |]. split; [reflexivity |].
  destruct (get_file_size_mb_accuracy model_path s st eq_refl eq_refl)
    as (h & _ & Hh & _).
  exists h. exact Hh.
Defined.

(** ** Worked examples of the frame and of the single command *)



Lemma harness_exit_status_witness :
  (Harness.main [("test_import_fix", true); ("test_error_handling", true);
                 ("test_full_workflow", true); ("test_jupyter_notebook", true)]).1 = 0.
Proof.
  apply (proj1 (harness_exit_status _)).
  intros name b Hin. simpl in Hin.
  repeat (destruct Hin as [Hin | Hin]; [now injection Hin as _ <- |]).
  destruct Hin.
Defined.
